(** * Library-Management: the lending service of [main.go]

    A shallow embedding of the eight fiber handlers of [main.go] over an
    explicit model of the two MongoDB collections, and the properties of
    borrowing, returning, registering, fetching and deleting proved on it.

    Modelling choices, all read off the source:
    - a collection is the list of its documents in natural (insertion)
      order, each document in the shape the Go struct decodes it to
      ([User], [Book]), so a [borrower_id] that is null and one that is
      missing are the same nil; [FindOne], [UpdateOne] and [DeleteOne] act
      on the first document that matches the filter, as the driver does;
    - a handler is a function from the store before the request to the
      response and the store after it; requests served one after the
      other compose these functions ([reachable], [completed]), and for
      requests that overlap [borrowBook] is cut between its reads and its
      writes ([overlapped]);
    - whatever the handler cannot control is read from an environment
      [Env]: whether the k-th store call of the request returns an error
      (time-out, lost connection), the identifier the driver generates for
      an inserted document, and what bcrypt answers;
    - a response is the status code and the JSON value written by
      [c.Status(..).JSON(..)]. *)

From Stdlib Require Import List String Ascii NArith Bool Arith Lia.
Import ListNotations.
Local Open Scope string_scope.
Local Open Scope list_scope.
Local Open Scope nat_scope.

(** ** Identifiers: [primitive.ObjectID] *)

(** A 12-byte identifier, held as the number its bytes spell (big endian). *)
Definition ObjectID := N.

Definition NilObjectID : ObjectID := 0%N.

Definition ObjectID_eqb (a b : ObjectID) : bool := N.eqb a b.

(** [hex.DecodeString] on one character: digits and both letter cases. *)
Definition fromHexChar (c : ascii) : option N :=
  let n := N_of_ascii c in
  if ((48 <=? n) && (n <=? 57))%N then Some (n - 48)%N
  else if ((97 <=? n) && (n <=? 102))%N then Some (n - 87)%N
  else if ((65 <=? n) && (n <=? 70))%N then Some (n - 55)%N
  else None.

Fixpoint hexDecode (s : string) (acc : N) : option N :=
  match s with
  | EmptyString => Some acc
  | String c rest =>
      match fromHexChar c with
      | Some d => hexDecode rest (acc * 16 + d)%N
      | None => None
      end
  end.

(** [primitive.ObjectIDFromHex]: exactly 24 hexadecimal characters. *)
Definition ObjectIDFromHex (s : string) : option ObjectID :=
  if Nat.eqb (String.length s) 24 then hexDecode s 0%N else None.

Definition hexDigit (d : N) : ascii :=
  if (d <? 10)%N then ascii_of_N (48 + d) else ascii_of_N (87 + d).

Fixpoint hexEncode (digits : nat) (n : N) (acc : string) : string :=
  match digits with
  | O => acc
  | S k => hexEncode k (n / 16)%N (String (hexDigit (n mod 16)%N) acc)
  end.

(** [ObjectID.Hex], which is also how an identifier is written to JSON. *)
Definition Hex (id : ObjectID) : string := hexEncode 24 id "".

(** ** Documents *)

Record User := mkUser {
  User_ID : ObjectID;          (* bson "_id,omitempty"  json "id" *)
  Username : string;           (* bson "username"       json "username" *)
  Password : string;           (* bson "password,omitempty"  json "-" *)
  Books : list ObjectID        (* bson "books"          json "books" *)
}.

Record Book := mkBook {
  Book_ID : ObjectID;              (* bson "_id,omitempty"  json "id" *)
  Title : string;                  (* bson "title"          json "title" *)
  BorrowerID : option ObjectID     (* bson/json "borrower_id,omitempty" *)
}.

(** The two package-level collection handles. *)
Record DB := mkDB {
  userCollection : list User;
  bookCollection : list Book
}.

(** ** JSON values and responses *)

Unset Elimination Schemes.
Inductive JSON : Type :=
| JNull
| JString (s : string)
| JArray (items : list JSON)
| JObject (fields : list (string * JSON)).
Set Elimination Schemes.

Record Response := reply {
  status : nat;
  body : JSON
}.

Definition StatusOK := 200.
Definition StatusCreated := 201.
Definition StatusBadRequest := 400.
Definition StatusUnauthorized := 401.
Definition StatusNotFound := 404.
Definition StatusInternalServerError := 500.

(** [fiber.Map{"error": msg}] *)
Definition errorBody (msg : string) : JSON := JObject [("error", JString msg)].

Definition ObjectID_json (id : ObjectID) : JSON := JString (Hex id).

(** [json.Marshal] of a [User], following the struct tags: the password
    carries the tag "-" and is not written. *)
Definition User_json (u : User) : JSON :=
  JObject [("id", ObjectID_json (User_ID u));
           ("username", JString (Username u));
           ("books", JArray (map ObjectID_json (Books u)))].

(** [json.Marshal] of a [Book]: "borrower_id" is dropped when nil. *)
Definition Book_json (b : Book) : JSON :=
  JObject ([("id", ObjectID_json (Book_ID b)); ("title", JString (Title b))]
           ++ match BorrowerID b with
              | Some u => [("borrower_id", ObjectID_json u)]
              | None => []
              end).

(** The keys of a JSON object, at its top level. *)
Definition keys (j : JSON) : list string :=
  match j with
  | JObject fields => map fst fields
  | _ => []
  end.

(** ** The environment of one request *)

Record Env := mkEnv {
  (** [storeError k]: the k-th store call in the handler's text (counted
      from 0) returns an error and has no effect. *)
  storeError : nat -> bool;
  (** the identifier the driver gives a document inserted without one *)
  NewObjectID : ObjectID;
  (** [bcrypt.GenerateFromPassword] at the default cost; [None] is an error *)
  GenerateFromPassword : string -> option string;
  (** [bcrypt.CompareHashAndPassword hashed password] returned nil *)
  CompareHashAndPassword : string -> string -> bool
}.

Definition hashPassword (e : Env) (password : string) : option string :=
  GenerateFromPassword e password.

Definition checkPasswordHash (e : Env) (password hashed : string) : bool :=
  CompareHashAndPassword e hashed password.

(** ** Store operations *)

Section Collection.
Context {D : Type}.
Variable doc_id : D -> ObjectID.
Variable set_id : ObjectID -> D -> D.

(** [FindOne(filter).Decode(&d)]: the first match; [None] stands for any
    error, [ErrNoDocuments] included. *)
Definition FindOne (e : Env) (call : nat) (filter : D -> bool) (c : list D)
  : option D :=
  if storeError e call then None else find filter c.

Definition CountDocuments (e : Env) (call : nat) (filter : D -> bool)
  (c : list D) : option nat :=
  if storeError e call then None else Some (List.length (List.filter filter c)).

(** [Find(bson.M{})] followed by [cursor.All]: two calls that may fail. *)
Definition FindAll (e : Env) (call : nat) (c : list D) : option (list D) :=
  if storeError e call then None else Some c.

(** A document whose [_id] is the zero value is sent without it and
    receives the driver's fresh identifier; the unique index on [_id]
    refuses a second document with the same identifier. *)
Definition InsertOne (e : Env) (call : nat) (d : D) (c : list D)
  : option (ObjectID * list D) :=
  let d' := if ObjectID_eqb (doc_id d) NilObjectID
            then set_id (NewObjectID e) d else d in
  if storeError e call then None
  else if existsb (fun x => ObjectID_eqb (doc_id x) (doc_id d')) c then None
  else Some (doc_id d', c ++ [d']).

Fixpoint updateFirst (filter : D -> bool) (update : D -> D) (c : list D)
  : list D :=
  match c with
  | [] => []
  | d :: rest =>
      if filter d then update d :: rest
      else d :: updateFirst filter update rest
  end.

(** [UpdateOne(filter, update)]: no match is not an error. *)
Definition UpdateOne (e : Env) (call : nat) (filter : D -> bool)
  (update : D -> D) (c : list D) : option (list D) :=
  if storeError e call then None else Some (updateFirst filter update c).

Fixpoint deleteFirst (filter : D -> bool) (c : list D) : nat * list D :=
  match c with
  | [] => (0, [])
  | d :: rest =>
      if filter d then (1, rest)
      else let (n, rest') := deleteFirst filter rest in (n, d :: rest')
  end.

(** [DeleteOne(filter)]: the result carries [DeletedCount]. *)
Definition DeleteOne (e : Env) (call : nat) (filter : D -> bool)
  (c : list D) : option (nat * list D) :=
  if storeError e call then None else Some (deleteFirst filter c).
End Collection.

(** Filters [bson.M{"_id": id}] and [bson.M{"username": name}]. *)
Definition user_by_id (id : ObjectID) (u : User) : bool :=
  ObjectID_eqb (User_ID u) id.
Definition book_by_id (id : ObjectID) (b : Book) : bool :=
  ObjectID_eqb (Book_ID b) id.
Definition by_username (name : string) (u : User) : bool :=
  String.eqb (Username u) name.

Definition set_User_ID (id : ObjectID) (u : User) : User :=
  mkUser id (Username u) (Password u) (Books u).
Definition set_Book_ID (id : ObjectID) (b : Book) : Book :=
  mkBook id (Title b) (BorrowerID b).

(** Updates [$set borrower_id], [$push books] and [$pull books]. *)
Definition set_borrower_id (v : option ObjectID) (b : Book) : Book :=
  mkBook (Book_ID b) (Title b) v.
Definition push_books (id : ObjectID) (u : User) : User :=
  mkUser (User_ID u) (Username u) (Password u) (Books u ++ [id]).
Definition pull_books (id : ObjectID) (u : User) : User :=
  mkUser (User_ID u) (Username u) (Password u)
         (filter (fun x => negb (ObjectID_eqb x id)) (Books u)).

(** ** Request bodies, as [c.BodyParser] fills them *)

(** [None] below stands for a body that [BodyParser] rejects. *)
Record Credentials := mkCredentials {
  body_Username : string;      (* json "username" *)
  body_Password : string       (* json "password" *)
}.

Record NewBook := mkNewBook {
  body_Title : string          (* json "title" *)
}.

Record Loan := mkLoan {
  body_UserID : string;        (* json "user_id" *)
  body_BookID : string         (* json "book_id" *)
}.

(** [if err != nil { return r }], the shape of every step of a handler. *)
Notation "'try' x <- c 'orelse' r ; k" :=
  (match c with Some x => k | None => r end)
  (at level 10, x pattern, c at level 100, r at level 100, k at level 200,
   format "'[v' 'try'  x  <-  c  'orelse'  r ; '/' k ']'").

(** ** The handlers *)

Definition registerUser (e : Env) (parsed : option Credentials) (db : DB)
  : Response * DB :=
  try body <- parsed
    orelse (reply StatusBadRequest (errorBody "Geçersiz JSON"), db);
  try count <- CountDocuments e 0 (by_username (body_Username body))
                 (userCollection db)
    orelse (reply StatusInternalServerError (errorBody "Veritabanı hatası"), db);
  if 0 <? count then
    (reply StatusBadRequest (errorBody "Kullanıcı adı zaten mevcut"), db)
  else
  try hashed <- hashPassword e (body_Password body)
    orelse (reply StatusInternalServerError (errorBody "Şifre hashlenemedi"), db);
  let user := mkUser NilObjectID (body_Username body) hashed [] in
  try res <- InsertOne User_ID set_User_ID e 1 user (userCollection db)
    orelse (reply StatusInternalServerError (errorBody "Kullanıcı eklenemedi"), db);
  (reply StatusCreated (JObject [("inserted_id", ObjectID_json (fst res))]),
   mkDB (snd res) (bookCollection db)).

Definition loginUser (e : Env) (parsed : option Credentials) (db : DB)
  : Response * DB :=
  try body <- parsed
    orelse (reply StatusBadRequest (errorBody "Geçersiz JSON"), db);
  try user <- FindOne e 0 (by_username (body_Username body)) (userCollection db)
    orelse (reply StatusNotFound (errorBody "Kullanıcı bulunamadı"), db);
  if negb (checkPasswordHash e (body_Password body) (Password user)) then
    (reply StatusUnauthorized (errorBody "Hatalı şifre"), db)
  else
    (reply StatusOK (JObject [("message", JString "Giriş başarılı");
                              ("user_id", ObjectID_json (User_ID user))]), db).

Definition getUser (e : Env) (id : string) (db : DB) : Response * DB :=
  try objID <- ObjectIDFromHex id
    orelse (reply StatusBadRequest (errorBody "Geçersiz kullanıcı ID"), db);
  try user <- FindOne e 0 (user_by_id objID) (userCollection db)
    orelse (reply StatusNotFound (errorBody "Kullanıcı bulunamadı"), db);
  let user := mkUser (User_ID user) (Username user) "" (Books user) in
  (reply StatusOK (User_json user), db).

Definition deleteUser (e : Env) (id : string) (db : DB) : Response * DB :=
  try objID <- ObjectIDFromHex id
    orelse (reply StatusBadRequest (errorBody "Geçersiz kullanıcı ID"), db);
  try res <- DeleteOne e 0 (user_by_id objID) (userCollection db)
    orelse (reply StatusInternalServerError (errorBody "Kullanıcı silinemedi"), db);
  if fst res =? 0 then
    (reply StatusNotFound (errorBody "Kullanıcı bulunamadı"),
     mkDB (snd res) (bookCollection db))
  else
    (reply StatusOK (JObject [("message", JString "Kullanıcı silindi")]),
     mkDB (snd res) (bookCollection db)).

Definition addBook (e : Env) (parsed : option NewBook) (db : DB)
  : Response * DB :=
  try body <- parsed
    orelse (reply StatusBadRequest (errorBody "Geçersiz JSON"), db);
  let book := mkBook NilObjectID (body_Title body) None in
  try res <- InsertOne Book_ID set_Book_ID e 0 book (bookCollection db)
    orelse (reply StatusInternalServerError (errorBody "Kitap eklenemedi"), db);
  (reply StatusCreated (JObject [("inserted_id", ObjectID_json (fst res))]),
   mkDB (userCollection db) (snd res)).

Definition listBooks (e : Env) (db : DB) : Response * DB :=
  try cursor <- FindAll e 0 (bookCollection db)
    orelse (reply StatusInternalServerError (errorBody "Kitaplar alınamadı"), db);
  try books <- FindAll e 1 cursor
    orelse (reply StatusInternalServerError
              (errorBody "Kitaplar parse edilemedi"), db);
  (* [var books []Book] stays nil when the cursor yields no document, and
     a nil slice is written as null *)
  (reply StatusOK (match books with
                   | [] => JNull
                   | _ :: _ => JArray (map Book_json books)
                   end), db).

Definition borrowBook (e : Env) (parsed : option Loan) (db : DB)
  : Response * DB :=
  try body <- parsed
    orelse (reply StatusBadRequest (errorBody "Geçersiz JSON"), db);
  try userObjID <- ObjectIDFromHex (body_UserID body)
    orelse (reply StatusBadRequest (errorBody "Geçersiz user_id"), db);
  try bookObjID <- ObjectIDFromHex (body_BookID body)
    orelse (reply StatusBadRequest (errorBody "Geçersiz book_id"), db);
  try user <- FindOne e 0 (user_by_id userObjID) (userCollection db)
    orelse (reply StatusNotFound (errorBody "Kullanıcı bulunamadı"), db);
  if 2 <=? List.length (Books user) then
    (reply StatusBadRequest (errorBody "Kullanıcının 2 kitap limiti doldu"), db)
  else
  try book <- FindOne e 1 (book_by_id bookObjID) (bookCollection db)
    orelse (reply StatusNotFound (errorBody "Kitap bulunamadı"), db);
  match BorrowerID book with
  | Some _ =>
      (reply StatusBadRequest (errorBody "Kitap zaten ödünç alınmış"), db)
  | None =>
  try books' <- UpdateOne e 2 (book_by_id bookObjID)
                  (set_borrower_id (Some userObjID)) (bookCollection db)
    orelse (reply StatusInternalServerError (errorBody "Kitap güncellenemedi"), db);
  try users' <- UpdateOne e 3 (user_by_id userObjID) (push_books bookObjID)
                  (userCollection db)
    orelse
      (* the compensating write; its own result is dropped *)
      (let undone := match UpdateOne e 4 (book_by_id bookObjID)
                             (set_borrower_id None) books' with
                     | Some books'' => books''
                     | None => books'
                     end in
       (reply StatusInternalServerError (errorBody "Kullanıcı güncellenemedi"),
        mkDB (userCollection db) undone));
  (reply StatusOK (JObject [("message", JString "Kitap başarıyla ödünç alındı")]),
   mkDB users' books')
  end.

Definition returnBook (e : Env) (parsed : option Loan) (db : DB)
  : Response * DB :=
  try body <- parsed
    orelse (reply StatusBadRequest (errorBody "Geçersiz JSON"), db);
  try userObjID <- ObjectIDFromHex (body_UserID body)
    orelse (reply StatusBadRequest (errorBody "Geçersiz user_id"), db);
  try bookObjID <- ObjectIDFromHex (body_BookID body)
    orelse (reply StatusBadRequest (errorBody "Geçersiz book_id"), db);
  try book <- FindOne e 0 (book_by_id bookObjID) (bookCollection db)
    orelse (reply StatusNotFound (errorBody "Kitap bulunamadı"), db);
  if match BorrowerID book with
     | None => true
     | Some borrower => negb (ObjectID_eqb borrower userObjID)
     end
  then
    (reply StatusBadRequest (errorBody "Bu kitap bu kullanıcıya ait değil"), db)
  else
  try books' <- UpdateOne e 1 (book_by_id bookObjID) (set_borrower_id None)
                  (bookCollection db)
    orelse (reply StatusInternalServerError (errorBody "Kitap güncellenemedi"), db);
  try users' <- UpdateOne e 2 (user_by_id userObjID) (pull_books bookObjID)
                  (userCollection db)
    orelse (reply StatusInternalServerError (errorBody "Kullanıcı güncellenemedi"),
            mkDB (userCollection db) books');
  (reply StatusOK (JObject [("message", JString "Kitap başarıyla iade edildi")]),
   mkDB users' books').

(** ** The router of [main] *)

Inductive Request :=
| PostRegister (parsed : option Credentials)    (* POST /register *)
| PostLogin (parsed : option Credentials)       (* POST /login *)
| GetUser (id : string)                         (* GET /user/:id *)
| DeleteUser (id : string)                      (* DELETE /user/:id *)
| PostBook (parsed : option NewBook)            (* POST /book *)
| GetBooks                                      (* GET /books *)
| PostBorrow (parsed : option Loan)             (* POST /borrow *)
| PostReturn (parsed : option Loan).            (* POST /return *)

Definition serve (e : Env) (r : Request) (db : DB) : Response * DB :=
  match r with
  | PostRegister parsed => registerUser e parsed db
  | PostLogin parsed => loginUser e parsed db
  | GetUser id => getUser e id db
  | DeleteUser id => deleteUser e id db
  | PostBook parsed => addBook e parsed db
  | GetBooks => listBooks e db
  | PostBorrow parsed => borrowBook e parsed db
  | PostReturn parsed => returnBook e parsed db
  end.

(** * Properties *)

(** ** What the statements speak about *)

(** No store call of the request fails. *)
Definition reliable (e : Env) : Prop := forall call, storeError e call = false.

(** The lending limit, read on the stored documents. *)
Definition withinLimit (db : DB) : Prop :=
  forall user, In user (userCollection db) -> List.length (Books user) <= 2.

(** The relationship between the two collections: a stored book names a
    stored user as its borrower exactly when that user's list holds it. *)
Definition related (db : DB) : Prop :=
  forall book user,
    In book (bookCollection db) -> In user (userCollection db) ->
    (BorrowerID book = Some (User_ID user) <->
     In (Book_ID book) (Books user)).

(** The unique index on [_id] that the store keeps on each collection. *)
Definition uniqueIDs (db : DB) : Prop :=
  NoDup (map User_ID (userCollection db)) /\
  NoDup (map Book_ID (bookCollection db)).

(** [id] occurs somewhere in the store: as the [_id] of a document, as the
    borrower of a book or in the list of a user. *)
Definition mentioned (id : ObjectID) (db : DB) : Prop :=
  In id (map User_ID (userCollection db)) \/
  In id (map Book_ID (bookCollection db)) \/
  In (Some id) (map BorrowerID (bookCollection db)) \/
  (exists user, In user (userCollection db) /\ In id (Books user)).

(** Stores reached from [db0] by serving requests one after the other,
    whatever the requests, the environment and the outcome.  Each step is
    a whole handler: no request starts before the previous one has
    answered.  Requests that overlap are the matter of [overlapped]. *)
Inductive reachable (db0 : DB) : DB -> Prop :=
| reachable_start : reachable db0 db0
| reachable_serve e r db :
    reachable db0 db -> reachable db0 (snd (serve e r db)).

(** Stores reached from [db0] by requests served one after the other
    that ran to completion: none answered with an internal error, and the
    driver never handed out an identifier that the store still mentions.
    As in [reachable], each step is a whole handler. *)
Inductive completed (db0 : DB) : DB -> Prop :=
| completed_start : completed db0 db0
| completed_serve e r db :
    completed db0 db ->
    ~ mentioned (NewObjectID e) db ->
    status (fst (serve e r db)) <> StatusInternalServerError ->
    completed db0 (snd (serve e r db)).

(** ** Requests that overlap *)

(** The handlers are sequences of separate store calls and fiber serves
    requests concurrently, so the calls of two requests can interleave.
    [borrowBook] is cut here where its reads end and its writes begin. *)

(** The reads and tests of [borrowBook]: the answer that ends the request,
    or the two identifiers it goes on to write. *)
Definition borrowBook_checks (e : Env) (parsed : option Loan) (db : DB)
  : Response + ObjectID * ObjectID :=
  try body <- parsed
    orelse inl (reply StatusBadRequest (errorBody "Geçersiz JSON"));
  try userObjID <- ObjectIDFromHex (body_UserID body)
    orelse inl (reply StatusBadRequest (errorBody "Geçersiz user_id"));
  try bookObjID <- ObjectIDFromHex (body_BookID body)
    orelse inl (reply StatusBadRequest (errorBody "Geçersiz book_id"));
  try user <- FindOne e 0 (user_by_id userObjID) (userCollection db)
    orelse inl (reply StatusNotFound (errorBody "Kullanıcı bulunamadı"));
  if 2 <=? List.length (Books user) then
    inl (reply StatusBadRequest (errorBody "Kullanıcının 2 kitap limiti doldu"))
  else
  try book <- FindOne e 1 (book_by_id bookObjID) (bookCollection db)
    orelse inl (reply StatusNotFound (errorBody "Kitap bulunamadı"));
  match BorrowerID book with
  | Some _ => inl (reply StatusBadRequest (errorBody "Kitap zaten ödünç alınmış"))
  | None => inr (userObjID, bookObjID)
  end.

(** The writes of [borrowBook], on the store as it is when they arrive:
    both filters are on [_id] alone. *)
Definition borrowBook_writes (e : Env) (userObjID bookObjID : ObjectID)
  (db : DB) : Response * DB :=
  try books' <- UpdateOne e 2 (book_by_id bookObjID)
                  (set_borrower_id (Some userObjID)) (bookCollection db)
    orelse (reply StatusInternalServerError (errorBody "Kitap güncellenemedi"), db);
  try users' <- UpdateOne e 3 (user_by_id userObjID) (push_books bookObjID)
                  (userCollection db)
    orelse
      (let undone := match UpdateOne e 4 (book_by_id bookObjID)
                             (set_borrower_id None) books' with
                     | Some books'' => books''
                     | None => books'
                     end in
       (reply StatusInternalServerError (errorBody "Kullanıcı güncellenemedi"),
        mkDB (userCollection db) undone));
  (reply StatusOK (JObject [("message", JString "Kitap başarıyla ödünç alındı")]),
   mkDB users' books').

(** A borrow that has passed its tests and has not written yet. *)
Definition Waiting : Type := Env * ObjectID * ObjectID.

(** Stores reached from [db0] when borrows may overlap: besides whole
    requests, a borrow may make its tests, wait while other requests are
    served, and make its writes later.  Every such run is a run of the
    program; the program has more (each store call is a step of its own). *)
Inductive overlapped (db0 : DB) : DB -> list Waiting -> Prop :=
| overlapped_start : overlapped db0 db0 []
| overlapped_serve e r db waiting :
    overlapped db0 db waiting ->
    overlapped db0 (snd (serve e r db)) waiting
| overlapped_checked e parsed db waiting u b :
    overlapped db0 db waiting ->
    borrowBook_checks e parsed db = inr (u, b) ->
    overlapped db0 db (waiting ++ [(e, u, b)])
| overlapped_written e u b db before after :
    overlapped db0 db (before ++ (e, u, b) :: after) ->
    overlapped db0 (snd (borrowBook_writes e u b db)) (before ++ after).

(** ** Concrete stores and requests used in the examples *)

Module Sample.
(** An environment in which the store answers every call. *)
Definition quiet (fresh : ObjectID) : Env :=
  mkEnv (fun _ => false) fresh
        (fun password => Some (append "$2a$10$" password))
        (fun hashed password => String.eqb hashed (append "$2a$10$" password)).

(** The same, except that store call number [k] fails. *)
Definition failing (k : nat) (fresh : ObjectID) : Env :=
  mkEnv (fun call => call =? k) fresh
        (fun password => Some (append "$2a$10$" password))
        (fun hashed password => String.eqb hashed (append "$2a$10$" password)).

Definition alice_id := "0000000000000000000000a1".   (* 161 *)
Definition bob_id := "0000000000000000000000b2".     (* 178 *)
Definition carol_id := "0000000000000000000000c3".   (* 195, no document *)
Definition dune_id := "000000000000000000000d01".    (* 3329 *)
Definition emma_id := "000000000000000000000d02".    (* 3330 *)
Definition faust_id := "000000000000000000000d03".   (* 3331 *)
Definition ghost_id := "000000000000000000000d04".   (* 3332, no document *)

Definition alice := mkUser 161%N "alice" "$2a$10$pw1" [3329%N; 3330%N].
Definition bob := mkUser 178%N "bob" "$2a$10$pw2" [].

Definition dune := mkBook 3329%N "Dune" (Some 161%N).
Definition emma := mkBook 3330%N "Emma" (Some 161%N).
Definition faust := mkBook 3331%N "Faust" None.

(** alice holds two books, bob none, one book is free. *)
Definition library : DB := mkDB [alice; bob] [dune; emma; faust].

Definition empty : DB := mkDB [] [].

(** A store in which a return lost its second write: the book is free
    again, the list of alice still names it. *)
Definition stale : DB :=
  mkDB [mkUser 161%N "alice" "$2a$10$pw1" [3331%N]] [faust].

(** A book whose borrower has no user document. *)
Definition orphaned : DB :=
  mkDB [bob] [mkBook 3331%N "Faust" (Some 195%N)].
End Sample.

(** [mentioned], computed. *)
Definition mentionedb (id : ObjectID) (db : DB) : bool :=
  existsb (ObjectID_eqb id) (map User_ID (userCollection db)) ||
  existsb (ObjectID_eqb id) (map Book_ID (bookCollection db)) ||
  existsb (fun book => match BorrowerID book with
                       | Some holder => ObjectID_eqb id holder
                       | None => false
                       end) (bookCollection db) ||
  existsb (fun user => existsb (ObjectID_eqb id) (Books user))
          (userCollection db).

(** A store in which identifiers are unique and the collections agree. *)
Definition consistent (db : DB) : Prop := uniqueIDs db /\ related db.

(** Every request of the session runs to completion in the sense of
    [completed]: a fresh identifier at hand and no internal error. *)
Fixpoint completes (db : DB) (session : list (Env * Request)) : bool :=
  match session with
  | [] => true
  | (e, r) :: rest =>
      negb (mentionedb (NewObjectID e) db) &&
      negb (status (fst (serve e r db)) =? StatusInternalServerError) &&
      completes (snd (serve e r db)) rest
  end.

(** Serving a list of requests, each in its own environment. *)
Definition replay (db : DB) (session : list (Env * Request)) : DB :=
  fold_left (fun db er => snd (serve (fst er) (snd er) db)) session db.

Module Session.
Import Sample.

(** alice registers, three books are added, and she asks for all three. *)
Definition three_requests : list (Env * Request) :=
  [(quiet 161%N, PostRegister (Some (mkCredentials "alice" "pw1")));
   (quiet 3329%N, PostBook (Some (mkNewBook "Dune")));
   (quiet 3330%N, PostBook (Some (mkNewBook "Emma")));
   (quiet 3331%N, PostBook (Some (mkNewBook "Faust")));
   (quiet 7%N, PostBorrow (Some (mkLoan alice_id dune_id)));
   (quiet 7%N, PostBorrow (Some (mkLoan alice_id emma_id)));
   (quiet 7%N, PostBorrow (Some (mkLoan alice_id faust_id)))].

(** alice registers, borrows the one book, and gives it back while the
    store drops the write to her list (store call 2 of the return). *)
Definition lost_write : list (Env * Request) :=
  [(quiet 161%N, PostRegister (Some (mkCredentials "alice" "pw1")));
   (quiet 3331%N, PostBook (Some (mkNewBook "Faust")));
   (quiet 7%N, PostBorrow (Some (mkLoan alice_id faust_id)));
   (failing 2 7%N, PostReturn (Some (mkLoan alice_id faust_id)))].

(** alice registers, borrows a book and is deleted; bob registers. *)
Definition borrower_deleted : list (Env * Request) :=
  [(quiet 161%N, PostRegister (Some (mkCredentials "alice" "pw1")));
   (quiet 3331%N, PostBook (Some (mkNewBook "Faust")));
   (quiet 7%N, PostBorrow (Some (mkLoan alice_id faust_id)));
   (quiet 7%N, DeleteUser alice_id);
   (quiet 178%N, PostRegister (Some (mkCredentials "bob" "pw2")))].
End Session.

Module Overlap.
Import Sample.

(** bob holds one book and two books are free. *)
Definition two_free_books : DB :=
  mkDB [mkUser 178%N "bob" "$2a$10$pw2" [3329%N]]
       [mkBook 3329%N "Dune" (Some 178%N); mkBook 3330%N "Emma" None; faust].

(** alice and bob hold nothing and one book is free. *)
Definition one_free_book : DB :=
  mkDB [mkUser 161%N "alice" "$2a$10$pw1" []; bob] [faust].
End Overlap.

(** ** Further notions used below *)

(** An identifier that fits the twelve bytes of [primitive.ObjectID]. *)
Definition validID (id : ObjectID) : Prop := (id < 2 ^ 96)%N.

(** No two stored users share a username. *)
Definition uniqueNames (db : DB) : Prop :=
  NoDup (map Username (userCollection db)).

(** The part of a book that lending never writes. *)
Definition catalogued (book : Book) : ObjectID * string :=
  (Book_ID book, Title book).

(** The requests that only read. *)
Definition readOnly (r : Request) : bool :=
  match r with
  | PostLogin _ | GetUser _ | GetBooks => true
  | _ => false
  end.

(** The requests that insert a document, and so depend on what the driver
    generates and, for a user, on bcrypt. *)
Definition inserts (r : Request) : bool :=
  match r with
  | PostRegister _ | PostBook _ => true
  | _ => false
  end.

(** The part of a user that lending never writes. *)
Definition credentials (user : User) : ObjectID * string * string :=
  (User_ID user, Username user, Password user).

(** The two requests that write to both collections. *)
Definition lends (r : Request) : bool :=
  match r with
  | PostBorrow _ | PostReturn _ => true
  | _ => false
  end.

(** ** Lists of documents *)

Ltac break_match :=
  match goal with
  | |- context [match ?x with _ => _ end] => destruct x eqn:?
  end.

Lemma ObjectID_eqb_eq (a b : ObjectID) : ObjectID_eqb a b = true <-> a = b.
Proof. apply N.eqb_eq. Qed.

Lemma ObjectID_eqb_neq (a b : ObjectID) : ObjectID_eqb a b = false <-> a <> b.
Proof. apply N.eqb_neq. Qed.

Lemma ObjectID_eqb_refl (a : ObjectID) : ObjectID_eqb a a = true.
Proof. apply N.eqb_refl. Qed.

Section Documents.
Context {D : Type}.
Variable doc_id : D -> ObjectID.
Variable update : D -> D.
Hypothesis update_id : forall d, doc_id (update d) = doc_id d.

Local Abbreviation by_id id := (fun d : D => ObjectID_eqb (doc_id d) id).

Lemma updateFirst_ids (filter : D -> bool) (c : list D) :
  map doc_id (updateFirst filter update c) = map doc_id c.
Proof.
  induction c as [|d rest IH]; simpl; [reflexivity|].
  destruct (filter d); simpl; [rewrite update_id | rewrite IH]; reflexivity.
Qed.

Lemma updateFirst_no_match (filter : D -> bool) (c : list D) :
  find filter c = None -> updateFirst filter update c = c.
Proof.
  induction c as [|d rest IH]; simpl; [reflexivity|].
  destruct (filter d); [discriminate|]. intros H. now rewrite IH.
Qed.

Lemma updateFirst_length (filter : D -> bool) (c : list D) :
  List.length (updateFirst filter update c) = List.length c.
Proof.
  induction c as [|d rest IH]; simpl; [reflexivity|].
  destruct (filter d); simpl; [reflexivity | now rewrite IH].
Qed.

(** What a document of the updated collection can be, in general. *)
Lemma updateFirst_In (filter : D -> bool) (c : list D) (x : D) :
  In x (updateFirst filter update c) ->
  In x c \/ exists d, find filter c = Some d /\ x = update d.
Proof.
  induction c as [|d rest IH]; simpl; [tauto|].
  destruct (filter d); simpl.
  - intros [<- | H]; [right; eauto | tauto].
  - intros [<- | H]; [tauto|]. destruct (IH H); tauto.
Qed.

(** With unique identifiers, the updated document replaces the only
    document that carried its identifier. *)
Lemma updateFirst_by_id_In (id : ObjectID) (c : list D) (x : D) :
  NoDup (map doc_id c) ->
  In x (updateFirst (by_id id) update c) ->
  (In x c /\ doc_id x <> id) \/
  (exists d, find (by_id id) c = Some d /\ In d c /\ doc_id d = id /\
             x = update d).
Proof.
  induction c as [|d rest IH]; simpl; [tauto|].
  intros Hnd. inversion Hnd as [|? ? Hnotin Hnd']; subst.
  destruct (ObjectID_eqb (doc_id d) id) eqn:E; simpl.
  - apply ObjectID_eqb_eq in E. intros [<- | H].
    + right. exists d. tauto.
    + left. split; [tauto|]. intros Hx. apply Hnotin.
      rewrite E, <- Hx. now apply in_map.
  - apply ObjectID_eqb_neq in E. intros [<- | H]; [tauto|].
    destruct (IH Hnd' H) as [[? ?] | (y & ? & ? & ? & ?)]; [tauto|].
    right. exists y. tauto.
Qed.

(** Every document of the old collection is still there, updated or not. *)
Lemma updateFirst_In_old (filter : D -> bool) (c : list D) (d : D) :
  In d c ->
  In d (updateFirst filter update c) \/
  (find filter c = Some d /\ In (update d) (updateFirst filter update c)).
Proof.
  induction c as [|y rest IH]; simpl; [tauto|].
  destruct (filter y) eqn:E; simpl.
  - intros [-> | H]; tauto.
  - intros [-> | H]; [tauto|]. destruct (IH H); tauto.
Qed.

Lemma find_by_id (id : ObjectID) (c : list D) (d : D) :
  find (by_id id) c = Some d -> In d c /\ doc_id d = id.
Proof.
  intros H. apply find_some in H. simpl in H.
  now rewrite ObjectID_eqb_eq in H.
Qed.

Lemma find_by_id_None (id : ObjectID) (c : list D) :
  find (by_id id) c = None <-> ~ In id (map doc_id c).
Proof.
  induction c as [|d rest IH]; simpl; [tauto|].
  destruct (ObjectID_eqb (doc_id d) id) eqn:E.
  - apply ObjectID_eqb_eq in E. split; [discriminate | tauto].
  - apply ObjectID_eqb_neq in E. tauto.
Qed.

Lemma deleteFirst_In (filter : D -> bool) (c : list D) (x : D) :
  In x (snd (deleteFirst filter c)) -> In x c.
Proof.
  induction c as [|d rest IH]; simpl; [tauto|].
  destruct (filter d); simpl; [tauto|].
  destruct (deleteFirst filter rest) as [n rest']; simpl in *.
  intros [<- | H]; tauto.
Qed.

Lemma deleteFirst_none (filter : D -> bool) (c : list D) :
  fst (deleteFirst filter c) = 0 -> snd (deleteFirst filter c) = c.
Proof.
  induction c as [|d rest IH]; simpl; [reflexivity|].
  destruct (filter d); simpl; [discriminate|].
  destruct (deleteFirst filter rest) as [n rest']; simpl in *.
  intros H. now rewrite IH.
Qed.

Lemma deleteFirst_one (filter : D -> bool) (c : list D) :
  fst (deleteFirst filter c) <> 0 ->
  List.length (snd (deleteFirst filter c)) + 1 = List.length c.
Proof.
  induction c as [|d rest IH]; simpl; [congruence|].
  destruct (filter d); simpl; [lia|].
  destruct (deleteFirst filter rest) as [n rest']; simpl in *.
  intros H. specialize (IH H). lia.
Qed.

Lemma deleteFirst_NoDup (filter : D -> bool) (c : list D) :
  NoDup (map doc_id c) -> NoDup (map doc_id (snd (deleteFirst filter c))).
Proof.
  induction c as [|d rest IH]; simpl; [tauto|].
  intros Hnd. inversion Hnd as [|? ? Hnotin Hnd']; subst.
  destruct (filter d); simpl; [assumption|].
  pose proof (deleteFirst_In filter rest) as Hin.
  destruct (deleteFirst filter rest) as [n rest']; simpl in *.
  constructor; [|now apply IH].
  intros H. apply in_map_iff in H. destruct H as (y & Hy & Hiny).
  apply Hnotin. rewrite <- Hy. apply in_map. now apply Hin.
Qed.
End Documents.

(** ** Borrowing: the two refusals *)

(** C1. A user whose stored list already holds two or more books is
    refused with 400 whatever book the request names (an identifier that
    does not parse, a book that does not exist, a free book): the store is
    left as it was, and once the book identifier parses the answer is the
    limit message, because the limit is tested before the book is read. *)
Theorem borrow_refused_at_limit :
  forall (e : Env) (body : Loan) (db : DB) (userObjID : ObjectID) (user : User),
    ObjectIDFromHex (body_UserID body) = Some userObjID ->
    FindOne e 0 (user_by_id userObjID) (userCollection db) = Some user ->
    2 <= List.length (Books user) ->
    status (fst (borrowBook e (Some body) db)) = StatusBadRequest /\
    snd (borrowBook e (Some body) db) = db /\
    (ObjectIDFromHex (body_BookID body) <> None ->
     fst (borrowBook e (Some body) db) =
     reply StatusBadRequest (errorBody "Kullanıcının 2 kitap limiti doldu")).
Proof.
  intros e body db userObjID user Hu Hfind Hlen.
  apply Nat.leb_le in Hlen.
  unfold borrowBook. rewrite Hu.
  destruct (ObjectIDFromHex (body_BookID body)) as [bookObjID|].
  - rewrite Hfind, Hlen. repeat split; reflexivity.
  - repeat split; try reflexivity. congruence.
Qed.

Lemma borrow_refused_at_limit_witness :
  status (fst (borrowBook (Sample.quiet 7%N)
                 (Some (mkLoan Sample.alice_id Sample.ghost_id))
                 Sample.library)) = StatusBadRequest /\
  snd (borrowBook (Sample.quiet 7%N)
         (Some (mkLoan Sample.alice_id Sample.ghost_id))
         Sample.library) = Sample.library.
Proof.
  pose proof (borrow_refused_at_limit (Sample.quiet 7%N)
                (mkLoan Sample.alice_id Sample.ghost_id) Sample.library
                161%N Sample.alice eq_refl eq_refl (le_n 2)) as H.
  split; [exact (proj1 H) | exact (proj1 (proj2 H))].
Defined.

(** C4. A book whose borrower field is set cannot be borrowed by any
    stored user, its present borrower included: the request is answered
    with 400 (the limit message if the requester is at the limit, the
    already-borrowed message otherwise) and neither collection changes. *)
Theorem borrow_refused_when_borrowed :
  forall (e : Env) (body : Loan) (db : DB) (userObjID bookObjID : ObjectID)
         (user : User) (book : Book) (holder : ObjectID),
    reliable e ->
    ObjectIDFromHex (body_UserID body) = Some userObjID ->
    ObjectIDFromHex (body_BookID body) = Some bookObjID ->
    find (user_by_id userObjID) (userCollection db) = Some user ->
    find (book_by_id bookObjID) (bookCollection db) = Some book ->
    BorrowerID book = Some holder ->
    status (fst (borrowBook e (Some body) db)) = StatusBadRequest /\
    snd (borrowBook e (Some body) db) = db /\
    (List.length (Books user) < 2 ->
     fst (borrowBook e (Some body) db) =
     reply StatusBadRequest (errorBody "Kitap zaten ödünç alınmış")).
Proof.
  intros e body db userObjID bookObjID user book holder He Hu Hb Huser Hbook Hheld.
  unfold borrowBook, FindOne. rewrite Hu, Hb, !He, Huser, Hbook, Hheld.
  destruct (2 <=? List.length (Books user)) eqn:Hlimit.
  - repeat split; try reflexivity.
    apply Nat.leb_le in Hlimit. lia.
  - repeat split; reflexivity.
Qed.

Lemma borrow_refused_when_borrowed_witness :
  (* bob asks for a book that alice holds *)
  fst (borrowBook (Sample.quiet 7%N)
         (Some (mkLoan Sample.bob_id Sample.dune_id)) Sample.library) =
  reply StatusBadRequest (errorBody "Kitap zaten ödünç alınmış") /\
  snd (borrowBook (Sample.quiet 7%N)
         (Some (mkLoan Sample.bob_id Sample.dune_id)) Sample.library) =
  Sample.library.
Proof.
  pose proof (borrow_refused_when_borrowed (Sample.quiet 7%N)
                (mkLoan Sample.bob_id Sample.dune_id) Sample.library
                178%N 3329%N Sample.bob Sample.dune 161%N
                (fun _ => eq_refl) eq_refl eq_refl eq_refl eq_refl eq_refl)
    as (_ & Hdb & Hmsg).
  split; [apply Hmsg; repeat constructor | exact Hdb].
Defined.

(** ** Returning *)

(** C5. When the stored book does not carry exactly the requesting
    identifier as its borrower (another borrower, or none), the return is
    answered with 400 and the store is left as it was. *)
Theorem return_refused_unless_borrower :
  forall (e : Env) (body : Loan) (db : DB) (userObjID bookObjID : ObjectID)
         (book : Book),
    ObjectIDFromHex (body_UserID body) = Some userObjID ->
    ObjectIDFromHex (body_BookID body) = Some bookObjID ->
    FindOne e 0 (book_by_id bookObjID) (bookCollection db) = Some book ->
    BorrowerID book <> Some userObjID ->
    fst (returnBook e (Some body) db) =
    reply StatusBadRequest (errorBody "Bu kitap bu kullanıcıya ait değil") /\
    snd (returnBook e (Some body) db) = db.
Proof.
  intros e body db userObjID bookObjID book Hu Hb Hbook Hother.
  unfold returnBook. rewrite Hu, Hb, Hbook.
  destruct (BorrowerID book) as [borrower|].
  - assert (ObjectID_eqb borrower userObjID = false) as ->.
    { apply ObjectID_eqb_neq. congruence. }
    split; reflexivity.
  - split; reflexivity.
Qed.

Lemma return_refused_unless_borrower_witness :
  (* bob returns a book that alice holds; bob returns a free book *)
  (fst (returnBook (Sample.quiet 7%N)
          (Some (mkLoan Sample.bob_id Sample.dune_id)) Sample.library) =
   reply StatusBadRequest (errorBody "Bu kitap bu kullanıcıya ait değil") /\
   snd (returnBook (Sample.quiet 7%N)
          (Some (mkLoan Sample.bob_id Sample.dune_id)) Sample.library) =
   Sample.library) /\
  (fst (returnBook (Sample.quiet 7%N)
          (Some (mkLoan Sample.bob_id Sample.faust_id)) Sample.library) =
   reply StatusBadRequest (errorBody "Bu kitap bu kullanıcıya ait değil") /\
   snd (returnBook (Sample.quiet 7%N)
          (Some (mkLoan Sample.bob_id Sample.faust_id)) Sample.library) =
   Sample.library).
Proof.
  split.
  - apply (return_refused_unless_borrower (Sample.quiet 7%N)
             (mkLoan Sample.bob_id Sample.dune_id) Sample.library
             178%N 3329%N Sample.dune eq_refl eq_refl eq_refl).
    discriminate.
  - apply (return_refused_unless_borrower (Sample.quiet 7%N)
             (mkLoan Sample.bob_id Sample.faust_id) Sample.library
             178%N 3331%N Sample.faust eq_refl eq_refl eq_refl).
    discriminate.
Defined.

(** C10. The handler never reads the users collection before it writes:
    whenever the stored book carries [userObjID] as its borrower, the
    return is answered with 200 and the borrower of that book is cleared,
    whether or not a user document with that identifier exists; when none
    exists the [$pull] matches nothing and the users collection is left as
    it was. *)
Theorem return_never_checks_user :
  forall (e : Env) (body : Loan) (db : DB) (userObjID bookObjID : ObjectID)
         (book : Book),
    reliable e ->
    ObjectIDFromHex (body_UserID body) = Some userObjID ->
    ObjectIDFromHex (body_BookID body) = Some bookObjID ->
    find (book_by_id bookObjID) (bookCollection db) = Some book ->
    BorrowerID book = Some userObjID ->
    status (fst (returnBook e (Some body) db)) = StatusOK /\
    bookCollection (snd (returnBook e (Some body) db)) =
      updateFirst (book_by_id bookObjID) (set_borrower_id None)
        (bookCollection db) /\
    find (book_by_id bookObjID)
      (bookCollection (snd (returnBook e (Some body) db))) =
      Some (mkBook (Book_ID book) (Title book) None) /\
    (find (user_by_id userObjID) (userCollection db) = None ->
     userCollection (snd (returnBook e (Some body) db)) = userCollection db).
Proof.
  intros e body db userObjID bookObjID book He Hu Hb Hbook Hheld.
  unfold returnBook, FindOne, UpdateOne.
  rewrite Hu, Hb, !He, Hbook, Hheld, ObjectID_eqb_refl. simpl.
  repeat split.
  - clear - Hbook. induction (bookCollection db) as [|d rest IH]; simpl in *.
    + discriminate.
    + destruct (book_by_id bookObjID d) eqn:E.
      * injection Hbook as ->. simpl.
        unfold book_by_id in *. simpl. now rewrite E.
      * simpl. rewrite E. now apply IH.
  - intros Hnone. now apply updateFirst_no_match.
Qed.

Lemma return_never_checks_user_witness :
  (* carol has no user document, yet the book is given back *)
  find (user_by_id 195%N) (userCollection Sample.orphaned) = None /\
  status (fst (returnBook (Sample.quiet 7%N)
                 (Some (mkLoan Sample.carol_id Sample.faust_id))
                 Sample.orphaned)) = StatusOK /\
  bookCollection (snd (returnBook (Sample.quiet 7%N)
                         (Some (mkLoan Sample.carol_id Sample.faust_id))
                         Sample.orphaned)) = [Sample.faust] /\
  userCollection (snd (returnBook (Sample.quiet 7%N)
                         (Some (mkLoan Sample.carol_id Sample.faust_id))
                         Sample.orphaned)) = [Sample.bob].
Proof.
  destruct (return_never_checks_user (Sample.quiet 7%N)
              (mkLoan Sample.carol_id Sample.faust_id) Sample.orphaned
              195%N 3331%N (mkBook 3331%N "Faust" (Some 195%N))
              (fun _ => eq_refl) eq_refl eq_refl eq_refl eq_refl)
    as (Hstatus & Hbooks & _ & Husers).
  split; [reflexivity|].
  split; [exact Hstatus|].
  split; [exact Hbooks | exact (Husers eq_refl)].
Defined.

(** ** The user service *)

(** C8. Deleting a user never writes to the books collection: it is the
    same list of documents afterwards, so a book that named the deleted
    user as its borrower still does; and a successful delete takes exactly
    one document out of the users collection. *)
Theorem deleteUser_keeps_books :
  forall (e : Env) (id : string) (db : DB),
    bookCollection (snd (deleteUser e id db)) = bookCollection db /\
    (forall objID book,
        ObjectIDFromHex id = Some objID ->
        In book (bookCollection db) -> BorrowerID book = Some objID ->
        In book (bookCollection (snd (deleteUser e id db)))) /\
    (status (fst (deleteUser e id db)) = StatusOK ->
     exists objID,
       ObjectIDFromHex id = Some objID /\
       userCollection (snd (deleteUser e id db)) =
         snd (deleteFirst (user_by_id objID) (userCollection db)) /\
       List.length (userCollection (snd (deleteUser e id db))) + 1 =
         List.length (userCollection db)).
Proof.
  intros e id db.
  assert (Hbooks : bookCollection (snd (deleteUser e id db)) = bookCollection db).
  { unfold deleteUser, DeleteOne. repeat break_match; reflexivity. }
  split; [exact Hbooks|]. split.
  - intros objID book _ Hin _. now rewrite Hbooks.
  - unfold deleteUser, DeleteOne.
    destruct (ObjectIDFromHex id) as [objID|]; [|discriminate].
    destruct (storeError e 0); [discriminate|].
    destruct (fst (deleteFirst (user_by_id objID) (userCollection db)) =? 0)
      eqn:Hcount; [discriminate|].
    intros _. exists objID. simpl. repeat split.
    apply deleteFirst_one. now apply Nat.eqb_neq.
Qed.

Lemma deleteUser_keeps_books_witness :
  (* alice is deleted while she holds two books *)
  status (fst (deleteUser (Sample.quiet 7%N) Sample.alice_id Sample.library)) =
    StatusOK /\
  userCollection
    (snd (deleteUser (Sample.quiet 7%N) Sample.alice_id Sample.library)) =
    [Sample.bob] /\
  In Sample.dune
    (bookCollection
       (snd (deleteUser (Sample.quiet 7%N) Sample.alice_id Sample.library))).
Proof.
  destruct (deleteUser_keeps_books (Sample.quiet 7%N) Sample.alice_id
              Sample.library) as (_ & Hheld & Hone).
  split; [reflexivity|].
  split.
  - destruct (Hone eq_refl) as (objID & Hid & Husers & _).
    injection Hid as <-. exact Husers.
  - apply (Hheld 161%N Sample.dune eq_refl); [left; reflexivity | reflexivity].
Defined.

(** C9. Fetching a user: 400 when the identifier does not parse, 404 when
    no user document carries it, and otherwise 200 with the stored record
    whose password has been blanked; the JSON written has the three fields
    id, username and books and no password. *)
Theorem getUser_answers :
  forall (e : Env) (id : string) (db : DB),
    (ObjectIDFromHex id = None ->
     getUser e id db =
     (reply StatusBadRequest (errorBody "Geçersiz kullanıcı ID"), db)) /\
    (forall objID,
        ObjectIDFromHex id = Some objID ->
        find (user_by_id objID) (userCollection db) = None ->
        getUser e id db =
        (reply StatusNotFound (errorBody "Kullanıcı bulunamadı"), db)) /\
    (forall objID user,
        ObjectIDFromHex id = Some objID ->
        storeError e 0 = false ->
        find (user_by_id objID) (userCollection db) = Some user ->
        getUser e id db =
        (reply StatusOK
           (User_json (mkUser (User_ID user) (Username user) "" (Books user))),
         db) /\
        body (fst (getUser e id db)) =
        JObject [("id", JString (Hex (User_ID user)));
                 ("username", JString (Username user));
                 ("books", JArray (map ObjectID_json (Books user)))] /\
        ~ In "password" (keys (body (fst (getUser e id db))))).
Proof.
  intros e id db. unfold getUser, FindOne. split; [|split].
  - intros ->. reflexivity.
  - intros objID -> Hnone. rewrite Hnone. now destruct (storeError e 0).
  - intros objID user -> -> ->. repeat split.
    simpl. intros [Hk | [Hk | [Hk | []]]]; discriminate.
Qed.

Lemma getUser_answers_witness :
  getUser (Sample.quiet 7%N) "alice" Sample.library =
    (reply StatusBadRequest (errorBody "Geçersiz kullanıcı ID"), Sample.library) /\
  getUser (Sample.quiet 7%N) Sample.carol_id Sample.library =
    (reply StatusNotFound (errorBody "Kullanıcı bulunamadı"), Sample.library) /\
  body (fst (getUser (Sample.quiet 7%N) Sample.alice_id Sample.library)) =
    JObject [("id", JString "0000000000000000000000a1");
             ("username", JString "alice");
             ("books", JArray [JString "000000000000000000000d01";
                               JString "000000000000000000000d02"])].
Proof.
  destruct (getUser_answers (Sample.quiet 7%N) "alice" Sample.library)
    as (Hbad & _ & _).
  destruct (getUser_answers (Sample.quiet 7%N) Sample.carol_id Sample.library)
    as (_ & Habsent & _).
  destruct (getUser_answers (Sample.quiet 7%N) Sample.alice_id Sample.library)
    as (_ & _ & Hfound).
  split; [exact (Hbad eq_refl)|].
  split; [exact (Habsent 195%N eq_refl eq_refl)|].
  exact (proj1 (proj2 (Hfound 161%N Sample.alice eq_refl eq_refl eq_refl))).
Defined.

Lemma count_by_existsb {D : Type} (filter : D -> bool) (c : list D) :
  (0 <? List.length (List.filter filter c)) = existsb filter c.
Proof.
  induction c as [|d rest IH]; simpl; [reflexivity|].
  destruct (filter d); simpl; [reflexivity | exact IH].
Qed.

(** C7. Registering: when a stored user already has the username the
    answer is 400 and nothing is stored; when none has it (and the count,
    the hash and the insert go through) the answer is 201 with the new
    identifier and a user with an empty book list is appended; registering
    the same username once more right after that is answered with 400 and
    stores nothing, so two registrations in a row give one success and one
    conflict. *)
Theorem registerUser_conflict_or_create :
  forall (e : Env) (req : Credentials) (db : DB),
    storeError e 0 = false ->
    (existsb (by_username (body_Username req)) (userCollection db) = true ->
     registerUser e (Some req) db =
     (reply StatusBadRequest (errorBody "Kullanıcı adı zaten mevcut"), db)) /\
    (forall hashed,
        existsb (by_username (body_Username req)) (userCollection db) = false ->
        hashPassword e (body_Password req) = Some hashed ->
        storeError e 1 = false ->
        existsb (user_by_id (NewObjectID e)) (userCollection db) = false ->
        let created := mkUser (NewObjectID e) (body_Username req) hashed [] in
        let db' := mkDB (userCollection db ++ [created]) (bookCollection db) in
        registerUser e (Some req) db =
        (reply StatusCreated
           (JObject [("inserted_id", JString (Hex (NewObjectID e)))]), db') /\
        forall (e' : Env) (again : Credentials),
          storeError e' 0 = false ->
          body_Username again = body_Username req ->
          registerUser e' (Some again) db' =
          (reply StatusBadRequest (errorBody "Kullanıcı adı zaten mevcut"), db')).
Proof.
  intros e req db Hcount. split.
  - intros Hexists. unfold registerUser, CountDocuments.
    now rewrite Hcount, count_by_existsb, Hexists.
  - intros hashed Hnew Hhash Hinsert Hfresh created db'. split.
    + unfold registerUser, CountDocuments, InsertOne.
      rewrite Hcount, count_by_existsb, Hnew, Hhash, Hinsert. simpl.
      unfold user_by_id in Hfresh. rewrite Hfresh. reflexivity.
    + intros e' again Hcount' Hname.
      unfold registerUser, CountDocuments.
      rewrite Hcount', count_by_existsb, Hname.
      assert (existsb (by_username (body_Username req)) (userCollection db')
              = true) as ->; [|reflexivity].
      subst db' created. simpl. rewrite existsb_app. simpl.
      unfold by_username at 2. simpl. rewrite String.eqb_refl.
      now rewrite orb_true_r.
Qed.

Lemma registerUser_conflict_or_create_witness :
  (* register("alice","pw1") on the empty store, then register("alice","pw2") *)
  status (fst (registerUser (Sample.quiet 161%N)
                 (Some (mkCredentials "alice" "pw1")) Sample.empty)) =
    StatusCreated /\
  fst (registerUser (Sample.quiet 162%N) (Some (mkCredentials "alice" "pw2"))
         (snd (registerUser (Sample.quiet 161%N)
                 (Some (mkCredentials "alice" "pw1")) Sample.empty))) =
    reply StatusBadRequest (errorBody "Kullanıcı adı zaten mevcut").
Proof.
  destruct (registerUser_conflict_or_create (Sample.quiet 161%N)
              (mkCredentials "alice" "pw1") Sample.empty eq_refl)
    as (_ & Hcreate).
  destruct (Hcreate "$2a$10$pw1" eq_refl eq_refl eq_refl eq_refl)
    as (Hfirst & Hsecond).
  split.
  - exact (f_equal (fun r => status (fst r)) Hfirst).
  - rewrite Hfirst.
    exact (f_equal fst (Hsecond (Sample.quiet 162%N)
                          (mkCredentials "alice" "pw2") eq_refl eq_refl)).
Defined.

(** ** The outcomes of the two lending handlers *)

Lemma FindOne_Some {D : Type} (e : Env) (call : nat) (filter : D -> bool)
  (c : list D) (d : D) :
  FindOne e call filter c = Some d ->
  storeError e call = false /\ find filter c = Some d.
Proof. unfold FindOne. destruct (storeError e call); [discriminate | tauto]. Qed.

Lemma UpdateOne_Some {D : Type} (e : Env) (call : nat) (filter : D -> bool)
  (update : D -> D) (c c' : list D) :
  UpdateOne e call filter update c = Some c' ->
  storeError e call = false /\ c' = updateFirst filter update c.
Proof.
  unfold UpdateOne. destruct (storeError e call); [discriminate|].
  intros H. injection H as <-. tauto.
Qed.

Lemma InsertOne_Some {D : Type} (doc_id : D -> ObjectID)
  (set_id : ObjectID -> D -> D) (e : Env) (call : nat) (d : D) (c : list D)
  (res : ObjectID * list D) :
  InsertOne doc_id set_id e call d c = Some res ->
  let d' := if ObjectID_eqb (doc_id d) NilObjectID
            then set_id (NewObjectID e) d else d in
  storeError e call = false /\
  ~ In (doc_id d') (map doc_id c) /\
  res = (doc_id d', c ++ [d']).
Proof.
  unfold InsertOne. destruct (storeError e call); [discriminate|].
  destruct (existsb _ c) eqn:Hdup; [discriminate|].
  intros H. injection H as <-. repeat split.
  intros Hin. apply in_map_iff in Hin. destruct Hin as (x & Hx & Hin).
  assert (existsb (fun x => ObjectID_eqb (doc_id x)
            (doc_id (if ObjectID_eqb (doc_id d) NilObjectID
                     then set_id (NewObjectID e) d else d))) c = true);
    [|congruence].
  apply existsb_exists. exists x. split; [exact Hin|].
  now apply ObjectID_eqb_eq.
Qed.

Lemma DeleteOne_Some {D : Type} (e : Env) (call : nat) (filter : D -> bool)
  (c : list D) (res : nat * list D) :
  DeleteOne e call filter c = Some res ->
  storeError e call = false /\ res = deleteFirst filter c.
Proof.
  unfold DeleteOne. destruct (storeError e call); [discriminate|].
  intros H. injection H as <-. tauto.
Qed.

Local Ltac refused := left; simpl; repeat split; discriminate.

(** Either the borrow did not go through, and then it wrote nothing to the
    users collection (and nothing at all unless it answered 500), or it
    passed every test and made both writes. *)
Lemma borrowBook_inv (e : Env) (parsed : option Loan) (db : DB) :
  (userCollection (snd (borrowBook e parsed db)) = userCollection db /\
   (status (fst (borrowBook e parsed db)) <> StatusInternalServerError ->
    snd (borrowBook e parsed db) = db) /\
   status (fst (borrowBook e parsed db)) <> StatusOK)
  \/
  (exists body u b user book,
      parsed = Some body /\
      ObjectIDFromHex (body_UserID body) = Some u /\
      ObjectIDFromHex (body_BookID body) = Some b /\
      find (user_by_id u) (userCollection db) = Some user /\
      List.length (Books user) < 2 /\
      find (book_by_id b) (bookCollection db) = Some book /\
      BorrowerID book = None /\
      borrowBook e parsed db =
      (reply StatusOK
         (JObject [("message", JString "Kitap başarıyla ödünç alındı")]),
       mkDB (updateFirst (user_by_id u) (push_books b) (userCollection db))
            (updateFirst (book_by_id b) (set_borrower_id (Some u))
               (bookCollection db)))).
Proof.
  unfold borrowBook.
  destruct parsed as [body|]; [|refused].
  destruct (ObjectIDFromHex (body_UserID body)) as [u|] eqn:Hu; [|refused].
  destruct (ObjectIDFromHex (body_BookID body)) as [b|] eqn:Hb; [|refused].
  destruct (FindOne e 0 (user_by_id u) (userCollection db)) as [user|] eqn:Huser;
    [|refused].
  apply FindOne_Some in Huser. destruct Huser as [_ Huser].
  destruct (2 <=? List.length (Books user)) eqn:Hlimit; [refused|].
  apply Nat.leb_gt in Hlimit.
  destruct (FindOne e 1 (book_by_id b) (bookCollection db)) as [book|] eqn:Hbook;
    [|refused].
  apply FindOne_Some in Hbook. destruct Hbook as [_ Hbook].
  destruct (BorrowerID book) as [holder|] eqn:Hheld; [refused|].
  destruct (UpdateOne e 2 _ _ _) as [books'|] eqn:Hbooks; [|refused].
  apply UpdateOne_Some in Hbooks. destruct Hbooks as [_ ->].
  destruct (UpdateOne e 3 _ _ _) as [users'|] eqn:Husers.
  - apply UpdateOne_Some in Husers. destruct Husers as [_ ->].
    right. exists body, u, b, user, book. repeat split; assumption.
  - left. simpl. repeat split; try discriminate. intros H. now elim H.
Qed.

(** The same for a return; the only test it makes is on the book. *)
Lemma returnBook_inv (e : Env) (parsed : option Loan) (db : DB) :
  (userCollection (snd (returnBook e parsed db)) = userCollection db /\
   (status (fst (returnBook e parsed db)) <> StatusInternalServerError ->
    snd (returnBook e parsed db) = db) /\
   status (fst (returnBook e parsed db)) <> StatusOK)
  \/
  (exists body u b book,
      parsed = Some body /\
      ObjectIDFromHex (body_UserID body) = Some u /\
      ObjectIDFromHex (body_BookID body) = Some b /\
      find (book_by_id b) (bookCollection db) = Some book /\
      BorrowerID book = Some u /\
      returnBook e parsed db =
      (reply StatusOK
         (JObject [("message", JString "Kitap başarıyla iade edildi")]),
       mkDB (updateFirst (user_by_id u) (pull_books b) (userCollection db))
            (updateFirst (book_by_id b) (set_borrower_id None)
               (bookCollection db)))).
Proof.
  unfold returnBook.
  destruct parsed as [body|]; [|refused].
  destruct (ObjectIDFromHex (body_UserID body)) as [u|] eqn:Hu; [|refused].
  destruct (ObjectIDFromHex (body_BookID body)) as [b|] eqn:Hb; [|refused].
  destruct (FindOne e 0 (book_by_id b) (bookCollection db)) as [book|] eqn:Hbook;
    [|refused].
  apply FindOne_Some in Hbook. destruct Hbook as [_ Hbook].
  destruct (BorrowerID book) as [holder|] eqn:Hheld; [|refused].
  destruct (ObjectID_eqb holder u) eqn:Hsame; simpl; [|refused].
  apply ObjectID_eqb_eq in Hsame. subst holder.
  destruct (UpdateOne e 1 _ _ _) as [books'|] eqn:Hbooks; [|refused].
  apply UpdateOne_Some in Hbooks. destruct Hbooks as [_ ->].
  destruct (UpdateOne e 2 _ _ _) as [users'|] eqn:Husers.
  - apply UpdateOne_Some in Husers. destruct Husers as [_ ->].
    right. exists body, u, b, book. repeat split; assumption.
  - left. simpl. repeat split; try discriminate. intros H. now elim H.
Qed.

(** ** The lending limit *)

Lemma withinLimit_same_users (db db' : DB) :
  userCollection db' = userCollection db -> withinLimit db -> withinLimit db'.
Proof. unfold withinLimit. intros ->. tauto. Qed.

Lemma registerUser_withinLimit (e : Env) (parsed : option Credentials) (db : DB) :
  withinLimit db -> withinLimit (snd (registerUser e parsed db)).
Proof.
  intros Hdb. unfold registerUser.
  destruct parsed as [body|]; [|exact Hdb].
  destruct (CountDocuments _ _ _ _) as [count|]; [|exact Hdb].
  destruct (0 <? count); [exact Hdb|].
  destruct (hashPassword _ _) as [hashed|]; [|exact Hdb].
  destruct (InsertOne _ _ _ _ _ _) as [res|] eqn:Hres; [|exact Hdb].
  apply InsertOne_Some in Hres. destruct Hres as (_ & _ & ->). simpl.
  intros user Hin. apply in_app_or in Hin. destruct Hin as [Hin | [<- | []]].
  - now apply Hdb.
  - simpl. lia.
Qed.

Lemma deleteUser_withinLimit (e : Env) (id : string) (db : DB) :
  withinLimit db -> withinLimit (snd (deleteUser e id db)).
Proof.
  intros Hdb. unfold deleteUser.
  destruct (ObjectIDFromHex id) as [objID|]; [|exact Hdb].
  destruct (DeleteOne _ _ _ _) as [res|] eqn:Hres; [|exact Hdb].
  apply DeleteOne_Some in Hres. destruct Hres as [_ ->].
  assert (withinLimit
            (mkDB (snd (deleteFirst (user_by_id objID) (userCollection db)))
                  (bookCollection db))) as Hafter.
  { intros user Hin. apply Hdb. simpl in Hin. now apply deleteFirst_In in Hin. }
  now destruct (fst _ =? 0).
Qed.

Lemma addBook_withinLimit (e : Env) (parsed : option NewBook) (db : DB) :
  withinLimit db -> withinLimit (snd (addBook e parsed db)).
Proof.
  intros Hdb. unfold addBook. repeat break_match; exact Hdb.
Qed.

Lemma borrowBook_withinLimit (e : Env) (parsed : option Loan) (db : DB) :
  withinLimit db -> withinLimit (snd (borrowBook e parsed db)).
Proof.
  intros Hdb.
  destruct (borrowBook_inv e parsed db)
    as [(Husers & _) | (body & u & b & user & book & _ & _ & _ & Huser & Hlen & _ & _ & ->)].
  - now apply withinLimit_same_users with db.
  - simpl. intros x Hin. simpl in Hin.
    apply updateFirst_In in Hin. destruct Hin as [Hin | (d & Hd & ->)].
    + now apply Hdb.
    + rewrite Huser in Hd. injection Hd as <-.
      simpl. rewrite length_app. simpl. lia.
Qed.

Lemma returnBook_withinLimit (e : Env) (parsed : option Loan) (db : DB) :
  withinLimit db -> withinLimit (snd (returnBook e parsed db)).
Proof.
  intros Hdb.
  destruct (returnBook_inv e parsed db)
    as [(Husers & _) | (body & u & b & book & _ & _ & _ & _ & _ & ->)].
  - now apply withinLimit_same_users with db.
  - simpl. intros x Hin. simpl in Hin.
    apply updateFirst_In in Hin. destruct Hin as [Hin | (d & Hd & ->)].
    + now apply Hdb.
    + apply find_some in Hd. destruct Hd as [Hd _]. apply Hdb in Hd.
      simpl. pose proof (filter_length_le
                           (fun x => negb (ObjectID_eqb x b)) (Books d)). lia.
Qed.

Lemma serve_withinLimit (e : Env) (r : Request) (db : DB) :
  withinLimit db -> withinLimit (snd (serve e r db)).
Proof.
  intros Hdb. destruct r; simpl.
  - now apply registerUser_withinLimit.
  - unfold loginUser. repeat break_match; exact Hdb.
  - unfold getUser. repeat break_match; exact Hdb.
  - now apply deleteUser_withinLimit.
  - now apply addBook_withinLimit.
  - unfold listBooks. repeat break_match; exact Hdb.
  - now apply borrowBook_withinLimit.
  - now apply returnBook_withinLimit.
Qed.

(** C6, for requests served one after the other. From a store in which
    every user's list has at most two entries (the empty store for one),
    every store reached by serving requests one at a time, whatever they
    are and however they end, has the same property:
    registering stores an empty list, borrowing appends only to a list it
    found shorter than two, returning and deleting only remove. *)
Theorem book_list_within_limit :
  forall (db0 db : DB),
    withinLimit db0 -> reachable db0 db ->
    forall user, In user (userCollection db) ->
                 0 <= List.length (Books user) <= 2.
Proof.
  intros db0 db H0 Hreach.
  assert (Hdb : withinLimit db).
  { induction Hreach as [|e r db Hreach IH]; [exact H0|].
    now apply serve_withinLimit. }
  intros user Hin. split; [lia | now apply Hdb].
Qed.

Lemma reachable_replay (db0 : DB) (session : list (Env * Request)) :
  reachable db0 (replay db0 session).
Proof.
  unfold replay. rewrite <- (rev_involutive session).
  induction (rev session) as [|[e r] rest IH]; simpl.
  - constructor.
  - rewrite fold_left_app. simpl. now constructor.
Qed.

Lemma book_list_within_limit_witness :
  (* the third borrow of the session is refused, the list stays at two *)
  userCollection (replay Sample.empty Session.three_requests) =
    [Sample.alice] /\
  forall user,
    In user (userCollection (replay Sample.empty Session.three_requests)) ->
    0 <= List.length (Books user) <= 2.
Proof.
  split; [reflexivity|].
  apply (book_list_within_limit Sample.empty).
  - intros user [].
  - apply reachable_replay.
Defined.

(** ** Borrowing and returning in a row *)

Section TwoUpdates.
Context {D : Type}.
Variables (filter : D -> bool) (first second : D -> D).

Lemma find_updateFirst (c : list D) (d : D) :
  find filter c = Some d -> filter (first d) = true ->
  find filter (updateFirst filter first c) = Some (first d).
Proof.
  induction c as [|y rest IH]; simpl; [discriminate|].
  destruct (filter y) eqn:E; simpl.
  - intros H Hkeep. injection H as ->. now rewrite Hkeep.
  - rewrite E. exact IH.
Qed.

(** A second update that undoes the first on the matched document gives
    the collection back. *)
Lemma updateFirst_undo (c : list D) (d : D) :
  find filter c = Some d -> filter (first d) = true ->
  second (first d) = d ->
  updateFirst filter second (updateFirst filter first c) = c.
Proof.
  induction c as [|y rest IH]; simpl; [discriminate|].
  destruct (filter y) eqn:E; simpl.
  - intros H Hkeep Hundo. injection H as ->. now rewrite Hkeep, Hundo.
  - intros H Hkeep Hundo. rewrite E. now rewrite IH.
Qed.
End TwoUpdates.

Lemma pull_push (b : ObjectID) (user : User) :
  ~ In b (Books user) -> pull_books b (push_books b user) = user.
Proof.
  intros Hnew. destruct user as [id name pw books]. unfold pull_books; simpl in *.
  f_equal. rewrite filter_app. simpl. rewrite ObjectID_eqb_refl. simpl.
  rewrite app_nil_r.
  induction books as [|x rest IH]; simpl in *; [reflexivity|].
  destruct (ObjectID_eqb x b) eqn:E.
  - apply ObjectID_eqb_eq in E. tauto.
  - simpl. f_equal. apply IH. tauto.
Qed.

Lemma clear_set_borrower (u : ObjectID) (book : Book) :
  BorrowerID book = None ->
  set_borrower_id None (set_borrower_id (Some u) book) = book.
Proof. destruct book as [id title held]. simpl. now intros ->. Qed.

(** In a store where the two collections agree, a book that can be
    borrowed is not yet in the borrower's list. *)
Lemma related_not_listed (db : DB) (u b : ObjectID) (user : User) (book : Book) :
  related db ->
  find (user_by_id u) (userCollection db) = Some user ->
  find (book_by_id b) (bookCollection db) = Some book ->
  BorrowerID book = None ->
  ~ In b (Books user).
Proof.
  intros Hrel Huser Hbook Hfree Hin.
  apply (find_by_id User_ID) in Huser. apply (find_by_id Book_ID) in Hbook.
  destruct Huser as [Huser _]. destruct Hbook as [Hbook <-].
  apply (Hrel book user Hbook Huser) in Hin. congruence.
Qed.

(** C3, as the code has it. When a borrow is answered with 200 and the
    book was not already in the list of the user (as in every store where
    the two collections agree), a return of the same book by the same user
    served right after it, with the store answering, is answered with 200
    and gives back exactly the store from before the borrow: the book has
    no borrower and the list of the user does not hold it. *)
Theorem borrow_then_return_restores :
  forall (e e' : Env) (body : Loan) (db : DB) (u b : ObjectID) (user : User),
    status (fst (borrowBook e (Some body) db)) = StatusOK ->
    reliable e' ->
    ObjectIDFromHex (body_UserID body) = Some u ->
    ObjectIDFromHex (body_BookID body) = Some b ->
    find (user_by_id u) (userCollection db) = Some user ->
    ~ In b (Books user) ->
    let borrowed := snd (borrowBook e (Some body) db) in
    status (fst (returnBook e' (Some body) borrowed)) = StatusOK /\
    snd (returnBook e' (Some body) borrowed) = db /\
    (exists book, find (book_by_id b) (bookCollection borrowed) = Some book /\
                  BorrowerID book = Some u) /\
    (exists book, find (book_by_id b) (bookCollection db) = Some book /\
                  BorrowerID book = None).
Proof.
  intros e e' body db u b user Hok He' Hu Hb Huser Hnew borrowed.
  subst borrowed.
  destruct (borrowBook_inv e (Some body) db)
    as [(_ & _ & Hno) |
        (body' & u' & b' & user' & book & Hbody & Hu' & Hb' & Huser' & _
         & Hbook & Hfree & Hout)]; [contradiction|].
  injection Hbody as <-.
  rewrite Hu in Hu'. injection Hu' as <-.
  rewrite Hb in Hb'. injection Hb' as <-.
  rewrite Huser in Huser'. injection Huser' as <-.
  rewrite Hout. simpl.
  assert (Hid : book_by_id b (set_borrower_id (Some u) book) = true).
  { apply find_some in Hbook. exact (proj2 Hbook). }
  assert (Hid' : user_by_id u (push_books b user) = true).
  { apply find_some in Huser. exact (proj2 Huser). }
  pose proof (find_updateFirst _ (set_borrower_id (Some u)) _ _ Hbook Hid)
    as Hheld.
  unfold returnBook, FindOne, UpdateOne. simpl.
  rewrite Hu, Hb, !He', Hheld. simpl. rewrite ObjectID_eqb_refl. simpl.
  rewrite (updateFirst_undo _ _ _ _ _ Hbook Hid (clear_set_borrower u book Hfree)).
  rewrite (updateFirst_undo _ _ _ _ _ Huser Hid' (pull_push b user Hnew)).
  split; [reflexivity|]. split; [now destruct db|]. split.
  - exists (set_borrower_id (Some u) book). split; reflexivity.
  - exists book. tauto.
Qed.

Lemma borrow_then_return_restores_witness :
  (* bob borrows the free book of the sample library and gives it back *)
  status (fst (returnBook (Sample.quiet 7%N)
                 (Some (mkLoan Sample.bob_id Sample.faust_id))
                 (snd (borrowBook (Sample.quiet 7%N)
                         (Some (mkLoan Sample.bob_id Sample.faust_id))
                         Sample.library)))) = StatusOK /\
  snd (returnBook (Sample.quiet 7%N)
         (Some (mkLoan Sample.bob_id Sample.faust_id))
         (snd (borrowBook (Sample.quiet 7%N)
                 (Some (mkLoan Sample.bob_id Sample.faust_id))
                 Sample.library))) = Sample.library.
Proof.
  destruct (borrow_then_return_restores (Sample.quiet 7%N) (Sample.quiet 7%N)
              (mkLoan Sample.bob_id Sample.faust_id) Sample.library
              178%N 3331%N Sample.bob eq_refl (fun _ => eq_refl)
              eq_refl eq_refl eq_refl (fun H : False => H))
    as (Hstatus & Hdb & _).
  split; [exact Hstatus | exact Hdb].
Defined.

(** The store [Sample.stale] is one the handlers produce themselves: a
    return whose write to the users collection fails leaves it behind. *)
Lemma stale_reachable :
  reachable Sample.empty Sample.stale /\
  status (fst (returnBook (Sample.failing 2 7%N)
                 (Some (mkLoan Sample.alice_id Sample.faust_id))
                 (replay Sample.empty (firstn 3 Session.lost_write)))) =
  StatusInternalServerError.
Proof.
  split; [|reflexivity].
  exact (reachable_replay Sample.empty Session.lost_write).
Qed.

(** C3, as stated, fails. In [Sample.stale] the book is free while the
    list of alice still names it; her borrow is answered with 200 and
    appends a second copy, her return is answered with 200 and pulls both
    copies, so the store after the return is not the store before the
    borrow. *)
Lemma borrow_then_return_not_identity :
  let loan := Some (mkLoan Sample.alice_id Sample.faust_id) in
  let borrowed := snd (borrowBook (Sample.quiet 7%N) loan Sample.stale) in
  status (fst (borrowBook (Sample.quiet 7%N) loan Sample.stale)) = StatusOK /\
  userCollection borrowed =
    [mkUser 161%N "alice" "$2a$10$pw1" [3331%N; 3331%N]] /\
  status (fst (returnBook (Sample.quiet 7%N) loan borrowed)) = StatusOK /\
  snd (returnBook (Sample.quiet 7%N) loan borrowed) =
    mkDB [mkUser 161%N "alice" "$2a$10$pw1" []] [Sample.faust] /\
  snd (returnBook (Sample.quiet 7%N) loan borrowed) <> Sample.stale.
Proof.
  repeat split. discriminate.
Qed.

(** ** The relationship between the two collections *)

Lemma NoDup_snoc {A : Type} (l : list A) (x : A) :
  NoDup l -> ~ In x l -> NoDup (l ++ [x]).
Proof.
  intros Hl Hx. apply NoDup_app; [exact Hl | repeat constructor; intros [] |].
  intros y Hy [<- | []]. contradiction.
Qed.

Lemma registerUser_consistent (e : Env) (parsed : option Credentials) (db : DB) :
  consistent db -> ~ mentioned (NewObjectID e) db ->
  consistent (snd (registerUser e parsed db)).
Proof.
  intros Hdb Hfresh. unfold registerUser.
  destruct parsed as [body|]; [|exact Hdb].
  destruct (CountDocuments _ _ _ _) as [count|]; [|exact Hdb].
  destruct (0 <? count); [exact Hdb|].
  destruct (hashPassword _ _) as [hashed|]; [|exact Hdb].
  destruct (InsertOne _ _ _ _ _ _) as [res|] eqn:Hres; [|exact Hdb].
  apply InsertOne_Some in Hres. destruct Hres as (_ & Hnew & ->).
  destruct Hdb as [[Husers Hbooks] Hrel]. simpl in *.
  split; [split|]; simpl.
  - rewrite map_app. simpl. now apply NoDup_snoc.
  - exact Hbooks.
  - intros book user Hinb Hinu. apply in_app_or in Hinu.
    destruct Hinu as [Hinu | [<- | []]]; [now apply Hrel|]. simpl.
    split; [|tauto]. intros Hheld. apply Hfresh.
    right. right. left. rewrite <- Hheld. now apply in_map.
Qed.

Lemma addBook_consistent (e : Env) (parsed : option NewBook) (db : DB) :
  consistent db -> ~ mentioned (NewObjectID e) db ->
  consistent (snd (addBook e parsed db)).
Proof.
  intros Hdb Hfresh. unfold addBook.
  destruct parsed as [body|]; [|exact Hdb].
  destruct (InsertOne _ _ _ _ _ _) as [res|] eqn:Hres; [|exact Hdb].
  apply InsertOne_Some in Hres. destruct Hres as (_ & Hnew & ->).
  destruct Hdb as [[Husers Hbooks] Hrel]. simpl in *.
  split; [split|]; simpl.
  - exact Husers.
  - rewrite map_app. simpl. now apply NoDup_snoc.
  - intros book user Hinb Hinu. apply in_app_or in Hinb.
    destruct Hinb as [Hinb | [<- | []]]; [now apply Hrel|]. simpl.
    split; [discriminate|]. intros Hlisted. exfalso. apply Hfresh.
    right. right. right. now exists user.
Qed.

Lemma deleteUser_consistent (e : Env) (id : string) (db : DB) :
  consistent db -> consistent (snd (deleteUser e id db)).
Proof.
  intros Hdb. unfold deleteUser.
  destruct (ObjectIDFromHex id) as [objID|]; [|exact Hdb].
  destruct (DeleteOne _ _ _ _) as [res|] eqn:Hres; [|exact Hdb].
  apply DeleteOne_Some in Hres. destruct Hres as [_ ->].
  assert (consistent
            (mkDB (snd (deleteFirst (user_by_id objID) (userCollection db)))
                  (bookCollection db))) as Hafter.
  { destruct Hdb as [[Husers Hbooks] Hrel]. split; [split|]; simpl.
    - now apply deleteFirst_NoDup.
    - exact Hbooks.
    - intros book user Hinb Hinu. apply Hrel; [exact Hinb|].
      now apply deleteFirst_In in Hinu. }
  now destruct (fst _ =? 0).
Qed.

Lemma uniqueIDs_updates (db : DB) (u b : ObjectID) (onUser : User -> User)
  (onBook : Book -> Book) :
  (forall x, User_ID (onUser x) = User_ID x) ->
  (forall x, Book_ID (onBook x) = Book_ID x) ->
  uniqueIDs db ->
  uniqueIDs (mkDB (updateFirst (user_by_id u) onUser (userCollection db))
                  (updateFirst (book_by_id b) onBook (bookCollection db))).
Proof.
  intros Hu Hb [Husers Hbooks]. split; simpl.
  - now rewrite (updateFirst_ids User_ID onUser Hu).
  - now rewrite (updateFirst_ids Book_ID onBook Hb).
Qed.

Lemma borrow_related (db : DB) (u b : ObjectID) (book : Book) :
  uniqueIDs db -> related db ->
  find (book_by_id b) (bookCollection db) = Some book ->
  BorrowerID book = None ->
  related (mkDB (updateFirst (user_by_id u) (push_books b) (userCollection db))
                (updateFirst (book_by_id b) (set_borrower_id (Some u))
                   (bookCollection db))).
Proof.
  intros [Husers Hbooks] Hrel Hbook Hfree book' user' Hinb Hinu. simpl in *.
  apply (updateFirst_by_id_In Book_ID (set_borrower_id (Some u)) b _ _ Hbooks) in Hinb.
  apply (updateFirst_by_id_In User_ID (push_books b) u _ _ Husers) in Hinu.
  destruct Hinb as [[Hinb Hidb] | (d & Hd & Hind & Hidd & ->)];
    destruct Hinu as [[Hinu Hidu] | (d' & Hd' & Hind' & Hidd' & ->)]; simpl.
  - now apply Hrel.
  - rewrite in_app_iff. simpl. specialize (Hrel book' d' Hinb Hind').
    split; [tauto|]. intros [H | [H | []]]; [tauto | congruence].
  - change (find (book_by_id b) (bookCollection db) = Some d) in Hd.
    rewrite Hbook in Hd. injection Hd as <-.
    specialize (Hrel book user' Hind Hinu).
    split; [congruence|]. intros H. apply Hrel in H. congruence.
  - rewrite in_app_iff, Hidd, Hidd'. simpl. tauto.
Qed.

Lemma return_related (db : DB) (u b : ObjectID) (book : Book) :
  uniqueIDs db -> related db ->
  find (book_by_id b) (bookCollection db) = Some book ->
  BorrowerID book = Some u ->
  related (mkDB (updateFirst (user_by_id u) (pull_books b) (userCollection db))
                (updateFirst (book_by_id b) (set_borrower_id None)
                   (bookCollection db))).
Proof.
  intros [Husers Hbooks] Hrel Hbook Hheld book' user' Hinb Hinu. simpl in *.
  apply (updateFirst_by_id_In Book_ID (set_borrower_id None) b _ _ Hbooks) in Hinb.
  apply (updateFirst_by_id_In User_ID (pull_books b) u _ _ Husers) in Hinu.
  destruct Hinb as [[Hinb Hidb] | (d & Hd & Hind & Hidd & ->)];
    destruct Hinu as [[Hinu Hidu] | (d' & Hd' & Hind' & Hidd' & ->)]; simpl.
  - now apply Hrel.
  - rewrite filter_In. specialize (Hrel book' d' Hinb Hind').
    assert (negb (ObjectID_eqb (Book_ID book') b) = true).
    { apply negb_true_iff. now apply ObjectID_eqb_neq. }
    tauto.
  - change (find (book_by_id b) (bookCollection db) = Some d) in Hd.
    rewrite Hbook in Hd. injection Hd as <-.
    specialize (Hrel book user' Hind Hinu).
    split; [discriminate|]. intros H. apply Hrel in H. congruence.
  - rewrite filter_In, Hidd, ObjectID_eqb_refl. simpl.
    split; [discriminate | intros [_ H]; discriminate].
Qed.

Lemma borrowBook_consistent (e : Env) (parsed : option Loan) (db : DB) :
  consistent db ->
  status (fst (borrowBook e parsed db)) <> StatusInternalServerError ->
  consistent (snd (borrowBook e parsed db)).
Proof.
  intros Hdb Hdone.
  destruct (borrowBook_inv e parsed db)
    as [(_ & Hsame & _) |
        (body & u & b & user & book & _ & _ & _ & _ & _ & Hbook & Hfree & ->)].
  - now rewrite Hsame.
  - destruct Hdb as [Hids Hrel]. split; simpl.
    + apply uniqueIDs_updates; auto.
    + now apply borrow_related with book.
Qed.

Lemma returnBook_consistent (e : Env) (parsed : option Loan) (db : DB) :
  consistent db ->
  status (fst (returnBook e parsed db)) <> StatusInternalServerError ->
  consistent (snd (returnBook e parsed db)).
Proof.
  intros Hdb Hdone.
  destruct (returnBook_inv e parsed db)
    as [(_ & Hsame & _) | (body & u & b & book & _ & _ & _ & Hbook & Hheld & ->)].
  - now rewrite Hsame.
  - destruct Hdb as [Hids Hrel]. split; simpl.
    + apply uniqueIDs_updates; auto.
    + now apply return_related with book.
Qed.

Lemma serve_consistent (e : Env) (r : Request) (db : DB) :
  consistent db ->
  ~ mentioned (NewObjectID e) db ->
  status (fst (serve e r db)) <> StatusInternalServerError ->
  consistent (snd (serve e r db)).
Proof.
  intros Hdb Hfresh Hdone. destruct r; simpl in *.
  - now apply registerUser_consistent.
  - unfold loginUser. repeat break_match; exact Hdb.
  - unfold getUser. repeat break_match; exact Hdb.
  - now apply deleteUser_consistent.
  - now apply addBook_consistent.
  - unfold listBooks. repeat break_match; exact Hdb.
  - now apply borrowBook_consistent.
  - now apply returnBook_consistent.
Qed.

Lemma completed_consistent (db0 db : DB) :
  consistent db0 -> completed db0 db -> consistent db.
Proof.
  intros H0 Hrun. induction Hrun as [|e r db Hrun IH Hfresh Hdone].
  - exact H0.
  - now apply serve_consistent.
Qed.

Lemma mentionedb_false (id : ObjectID) (db : DB) :
  mentionedb id db = false -> ~ mentioned id db.
Proof.
  unfold mentionedb, mentioned. intros Hb Hm.
  apply not_true_iff_false in Hb. apply Hb.
  rewrite !orb_true_iff, !existsb_exists.
  destruct Hm as [H | [H | [H | (user & Hin & H)]]].
  - left. left. left. exists id. split; [exact H | apply ObjectID_eqb_refl].
  - left. left. right. exists id. split; [exact H | apply ObjectID_eqb_refl].
  - left. right. apply in_map_iff in H. destruct H as (book & Hheld & Hin).
    exists book. split; [exact Hin|]. rewrite Hheld. apply ObjectID_eqb_refl.
  - right. exists user. split; [exact Hin|].
    apply existsb_exists. exists id. split; [exact H | apply ObjectID_eqb_refl].
Qed.

Lemma completed_replay (db0 : DB) (session : list (Env * Request)) :
  forall db, completed db0 db -> completes db session = true ->
             completed db0 (replay db session).
Proof.
  induction session as [|[e r] rest IH]; intros db Hrun Hok; simpl in *.
  - exact Hrun.
  - apply andb_true_iff in Hok. destruct Hok as [Hok Hrest].
    apply andb_true_iff in Hok. destruct Hok as [Hfresh Hdone].
    apply IH; [|exact Hrest]. constructor.
    + exact Hrun.
    + apply mentionedb_false. now apply negb_true_iff.
    + apply negb_true_iff in Hdone. now apply Nat.eqb_neq.
Qed.

(** C2, for requests served one after the other. Start from a store in
    which the collections agree (and, as the store guarantees, no two
    documents of a collection share an identifier). After any number of
    requests that ran to completion, none overlapping another, for
    every stored book and every stored user the book carries the user's
    identifier as its borrower exactly when the user's list holds the
    book's identifier: a borrow writes both sides, a return clears both
    sides, and a delete only takes the user document away. *)
Theorem relationship_invariant :
  forall (db0 db : DB),
    uniqueIDs db0 -> related db0 -> completed db0 db ->
    forall book user,
      In book (bookCollection db) -> In user (userCollection db) ->
      (BorrowerID book = Some (User_ID user) <->
       In (Book_ID book) (Books user)).
Proof.
  intros db0 db Hids Hrel Hrun.
  exact (proj2 (completed_consistent db0 db (conj Hids Hrel) Hrun)).
Qed.

Lemma empty_consistent : consistent Sample.empty.
Proof.
  split; [split; constructor|]. intros book user [].
Qed.

Lemma relationship_invariant_witness :
  (* alice borrows a book and is deleted, then bob registers: the book
     still names alice, and it is in no stored list *)
  replay Sample.empty Session.borrower_deleted =
    mkDB [Sample.bob] [mkBook 3331%N "Faust" (Some 161%N)] /\
  forall book user,
    In book (bookCollection (replay Sample.empty Session.borrower_deleted)) ->
    In user (userCollection (replay Sample.empty Session.borrower_deleted)) ->
    (BorrowerID book = Some (User_ID user) <->
     In (Book_ID book) (Books user)).
Proof.
  split; [reflexivity|].
  apply (relationship_invariant Sample.empty).
  - exact (proj1 empty_consistent).
  - exact (proj2 empty_consistent).
  - apply completed_replay; [constructor | reflexivity].
Defined.

(** Two remarks on what C2 does and does not cover.  A return that is
    answered with 500 after its first write leaves a store in which the
    collections disagree; and after a delete a book can name a borrower
    that no user document carries. *)
Lemma stale_not_related : ~ related Sample.stale.
Proof.
  intros Hrel.
  assert (BorrowerID Sample.faust = Some 161%N) as H; [|discriminate H].
  apply (Hrel Sample.faust (mkUser 161%N "alice" "$2a$10$pw1" [3331%N]));
    simpl; tauto.
Qed.

Lemma borrower_without_document :
  let db := replay Sample.empty Session.borrower_deleted in
  completed Sample.empty db /\
  In (Some 161%N) (map BorrowerID (bookCollection db)) /\
  ~ In 161%N (map User_ID (userCollection db)).
Proof.
  split; [apply completed_replay; [constructor | reflexivity]|].
  split; simpl; [tauto|]. intros [H | []]. discriminate H.
Qed.

(** ** Borrows that overlap *)

(** Made back to back, the two phases are the handler. *)
Lemma borrowBook_phases (e : Env) (parsed : option Loan) (db : DB) :
  borrowBook e parsed db =
  match borrowBook_checks e parsed db with
  | inl answer => (answer, db)
  | inr (u, b) => borrowBook_writes e u b db
  end.
Proof.
  unfold borrowBook, borrowBook_checks, borrowBook_writes.
  destruct parsed as [body|]; [|reflexivity].
  destruct (ObjectIDFromHex (body_UserID body)) as [u|]; [|reflexivity].
  destruct (ObjectIDFromHex (body_BookID body)) as [b|]; [|reflexivity].
  destruct (FindOne e 0 _ _) as [user|]; [|reflexivity].
  destruct (2 <=? _); [reflexivity|].
  destruct (FindOne e 1 _ _) as [book|]; [|reflexivity].
  destruct (BorrowerID book); reflexivity.
Qed.

(** Requests served one after the other are a special case. *)
Lemma reachable_overlapped (db0 db : DB) :
  reachable db0 db -> overlapped db0 db [].
Proof.
  intros Hrun. induction Hrun as [|e r db Hrun IH]; now constructor.
Qed.

(** C6, as stated, fails once two requests overlap. bob holds one book;
    two borrows by bob, for two different free books, both make their
    tests before either writes. Each finds a list of one entry, each is
    answered with 200, and bob's list ends with three entries. *)
Lemma overlapping_borrows_exceed_limit :
  let db0 := Overlap.two_free_books in
  let e := Sample.quiet 7%N in
  let db1 := snd (borrowBook_writes e 178%N 3330%N db0) in
  let db2 := snd (borrowBook_writes e 178%N 3331%N db1) in
  withinLimit db0 /\
  borrowBook_checks e (Some (mkLoan Sample.bob_id Sample.emma_id)) db0 =
    inr (178%N, 3330%N) /\
  borrowBook_checks e (Some (mkLoan Sample.bob_id Sample.faust_id)) db0 =
    inr (178%N, 3331%N) /\
  status (fst (borrowBook_writes e 178%N 3330%N db0)) = StatusOK /\
  status (fst (borrowBook_writes e 178%N 3331%N db1)) = StatusOK /\
  overlapped db0 db2 [] /\
  userCollection db2 =
    [mkUser 178%N "bob" "$2a$10$pw2" [3329%N; 3330%N; 3331%N]] /\
  ~ withinLimit db2.
Proof.
  intros db0 e db1 db2.
  split. { intros user [<- | []]. simpl. lia. }
  split; [reflexivity|]. split; [reflexivity|].
  split; [reflexivity|]. split; [reflexivity|].
  split.
  { apply (overlapped_written db0 e 178%N 3331%N db1 [] []).
    apply (overlapped_written db0 e 178%N 3330%N db0 [] [(e, 178%N, 3331%N)]).
    apply (overlapped_checked db0 e
             (Some (mkLoan Sample.bob_id Sample.faust_id)) db0
             [(e, 178%N, 3330%N)] 178%N 3331%N); [|reflexivity].
    apply (overlapped_checked db0 e
             (Some (mkLoan Sample.bob_id Sample.emma_id)) db0
             [] 178%N 3330%N); [|reflexivity].
    constructor. }
  split; [reflexivity|].
  intros Hlimit.
  specialize (Hlimit (mkUser 178%N "bob" "$2a$10$pw2" [3329%N; 3330%N; 3331%N])
                (or_introl eq_refl)).
  simpl in Hlimit. lia.
Qed.

(** C2, as stated, fails once two requests overlap. One book is free;
    alice and bob both ask for it and both make their tests before either
    writes. Each finds the book free, each is answered with 200; the
    second [$set] overwrites the borrower, so the book names bob while the
    list of alice holds it as well. *)
Lemma overlapping_borrows_break_relationship :
  let db0 := Overlap.one_free_book in
  let e := Sample.quiet 7%N in
  let db1 := snd (borrowBook_writes e 161%N 3331%N db0) in
  let db2 := snd (borrowBook_writes e 178%N 3331%N db1) in
  uniqueIDs db0 /\ related db0 /\
  borrowBook_checks e (Some (mkLoan Sample.alice_id Sample.faust_id)) db0 =
    inr (161%N, 3331%N) /\
  borrowBook_checks e (Some (mkLoan Sample.bob_id Sample.faust_id)) db0 =
    inr (178%N, 3331%N) /\
  status (fst (borrowBook_writes e 161%N 3331%N db0)) = StatusOK /\
  status (fst (borrowBook_writes e 178%N 3331%N db1)) = StatusOK /\
  overlapped db0 db2 [] /\
  db2 = mkDB [mkUser 161%N "alice" "$2a$10$pw1" [3331%N];
              mkUser 178%N "bob" "$2a$10$pw2" [3331%N]]
             [mkBook 3331%N "Faust" (Some 178%N)] /\
  ~ related db2.
Proof.
  intros db0 e db1 db2.
  split.
  { split; simpl.
    - constructor; [simpl; intros [H | []]; discriminate H|].
      constructor; [intros [] | constructor].
    - constructor; [intros [] | constructor]. }
  split.
  { intros book user [<- | []] [<- | [<- | []]]; simpl;
      (split; [discriminate | intros []]). }
  split; [reflexivity|]. split; [reflexivity|].
  split; [reflexivity|]. split; [reflexivity|].
  split.
  { apply (overlapped_written db0 e 178%N 3331%N db1 [] []).
    apply (overlapped_written db0 e 161%N 3331%N db0 [] [(e, 178%N, 3331%N)]).
    apply (overlapped_checked db0 e
             (Some (mkLoan Sample.bob_id Sample.faust_id)) db0
             [(e, 161%N, 3331%N)] 178%N 3331%N); [|reflexivity].
    apply (overlapped_checked db0 e
             (Some (mkLoan Sample.alice_id Sample.faust_id)) db0
             [] 161%N 3331%N); [|reflexivity].
    constructor. }
  split; [reflexivity|].
  intros Hrel.
  assert (Some 178%N = Some 161%N) as H; [|discriminate H].
  apply (Hrel (mkBook 3331%N "Faust" (Some 178%N))
              (mkUser 161%N "alice" "$2a$10$pw1" [3331%N]));
    simpl; tauto.
Qed.

(** * Further properties of the handlers *)

(** ** Identifiers written and read back *)

Lemma fromHexChar_hexDigit (d : N) :
  (d < 16)%N -> fromHexChar (hexDigit d) = Some d.
Proof.
  intros Hd.
  destruct d as [|p]; [reflexivity|].
  do 5 (destruct p as [p|p|]; try reflexivity; try (exfalso; lia)).
Qed.

Lemma length_hexEncode (digits : nat) (n : N) (acc : string) :
  String.length (hexEncode digits n acc) = digits + String.length acc.
Proof.
  revert n acc. induction digits as [|k IH]; intros n acc; simpl.
  - reflexivity.
  - rewrite IH. simpl. lia.
Qed.

Lemma hexDecode_hexEncode (digits : nat) (n : N) (acc : string) (a : N) :
  hexDecode (hexEncode digits n acc) a =
  hexDecode acc (a * 16 ^ N.of_nat digits + n mod 16 ^ N.of_nat digits)%N.
Proof.
  revert n acc a. induction digits as [|k IH]; intros n acc a.
  - simpl. rewrite N.mod_1_r. f_equal. lia.
  - cbn [hexEncode]. rewrite IH. cbn [hexDecode].
    rewrite fromHexChar_hexDigit by (apply N.mod_lt; discriminate).
    f_equal. rewrite Nat2N.inj_succ, N.pow_succ_r'.
    rewrite N.Div0.mod_mul_r.
    set (P := (16 ^ N.of_nat k)%N). lia.
Qed.

Lemma ObjectIDFromHex_Hex (id : ObjectID) :
  validID id -> ObjectIDFromHex (Hex id) = Some id.
Proof.
  intros Hid. unfold ObjectIDFromHex, Hex.
  rewrite length_hexEncode. cbn [String.length Nat.add Nat.eqb].
  rewrite hexDecode_hexEncode. cbn [hexDecode]. f_equal.
  change (16 ^ N.of_nat 24)%N with (2 ^ 96)%N.
  rewrite N.mod_small by exact Hid. lia.
Qed.

(** ** What the handlers leave alone *)

Local Ltac status_codes :=
  unfold StatusOK, StatusCreated, StatusBadRequest, StatusUnauthorized,
    StatusNotFound, StatusInternalServerError in *.

(** X1. The three reading handlers hand the store back as they found it,
    in every environment and whatever they answer. *)
Theorem reading_requests_write_nothing :
  forall (e : Env) (r : Request) (db : DB),
    readOnly r = true -> snd (serve e r db) = db.
Proof.
  intros e r db Hr. destruct r; try discriminate Hr; simpl.
  - unfold loginUser. repeat break_match; reflexivity.
  - unfold getUser. repeat break_match; reflexivity.
  - unfold listBooks. repeat break_match; reflexivity.
Qed.

Lemma reading_requests_write_nothing_witness :
  snd (serve (Sample.quiet 7%N)
         (PostLogin (Some (mkCredentials "alice" "pw1"))) Sample.library) =
  Sample.library.
Proof.
  exact (reading_requests_write_nothing (Sample.quiet 7%N)
           (PostLogin (Some (mkCredentials "alice" "pw1"))) Sample.library
           eq_refl).
Defined.

Lemma deleteUser_refused (e : Env) (id : string) (db : DB) :
  status (fst (deleteUser e id db)) <> StatusOK ->
  snd (deleteUser e id db) = db.
Proof.
  unfold deleteUser.
  destruct (ObjectIDFromHex id) as [objID|]; [|reflexivity].
  destruct (DeleteOne _ _ _ _) as [res|] eqn:Hres; [|reflexivity].
  apply DeleteOne_Some in Hres. destruct Hres as [_ ->].
  destruct (fst _ =? 0) eqn:Hcount; simpl; [|intros H; now elim H].
  intros _. apply Nat.eqb_eq in Hcount.
  rewrite (deleteFirst_none _ _ Hcount). now destruct db.
Qed.

(** X2. A request answered with a 4xx status has written nothing: the
    store after it is the store before it, for every handler and in every
    environment. *)
Theorem client_errors_write_nothing :
  forall (e : Env) (r : Request) (db : DB),
    400 <= status (fst (serve e r db)) < 500 ->
    snd (serve e r db) = db.
Proof.
  intros e r db. destruct r; simpl.
  - unfold registerUser. status_codes.
    repeat break_match; simpl; intros; try reflexivity; lia.
  - intros _. unfold loginUser. repeat break_match; reflexivity.
  - intros _. unfold getUser. repeat break_match; reflexivity.
  - intros H. apply deleteUser_refused. status_codes. lia.
  - unfold addBook. status_codes.
    repeat break_match; simpl; intros; try reflexivity; lia.
  - intros _. unfold listBooks. repeat break_match; reflexivity.
  - intros H.
    destruct (borrowBook_inv e parsed db)
      as [(_ & Hsame & _) | (? & ? & ? & ? & ? & _ & _ & _ & _ & _ & _ & _ & Hout)].
    + apply Hsame. status_codes. lia.
    + rewrite Hout in H. simpl in H. status_codes. lia.
  - intros H.
    destruct (returnBook_inv e parsed db)
      as [(_ & Hsame & _) | (? & ? & ? & ? & _ & _ & _ & _ & _ & Hout)].
    + apply Hsame. status_codes. lia.
    + rewrite Hout in H. simpl in H. status_codes. lia.
Qed.

Lemma client_errors_write_nothing_witness :
  (* deleting a user that has no document: 404 *)
  status (fst (serve (Sample.quiet 7%N) (DeleteUser Sample.carol_id)
                 Sample.library)) = StatusNotFound /\
  snd (serve (Sample.quiet 7%N) (DeleteUser Sample.carol_id) Sample.library) =
  Sample.library.
Proof.
  split; [reflexivity|].
  apply (client_errors_write_nothing (Sample.quiet 7%N)
           (DeleteUser Sample.carol_id) Sample.library).
  split; repeat constructor.
Defined.

(** X3. With the store answering every call, only the two inserting
    handlers can answer 500 (a refused insert, a failed hash); login,
    fetch, delete, list, borrow and return never do. *)
Theorem no_internal_error_when_store_answers :
  forall (e : Env) (r : Request) (db : DB),
    reliable e -> inserts r = false ->
    status (fst (serve e r db)) <> StatusInternalServerError.
Proof.
  intros e r db He Hr. destruct r; try discriminate Hr; simpl.
  - unfold loginUser. repeat break_match; discriminate.
  - unfold getUser. repeat break_match; discriminate.
  - unfold deleteUser, DeleteOne. rewrite He. repeat break_match; discriminate.
  - unfold listBooks, FindAll. rewrite !He. discriminate.
  - unfold borrowBook, UpdateOne. rewrite !He. repeat break_match; discriminate.
  - unfold returnBook, UpdateOne. rewrite !He. repeat break_match; discriminate.
Qed.

Lemma no_internal_error_when_store_answers_witness :
  status (fst (serve (Sample.quiet 7%N)
                 (PostBorrow (Some (mkLoan Sample.bob_id Sample.faust_id)))
                 Sample.library)) <> StatusInternalServerError.
Proof.
  apply (no_internal_error_when_store_answers (Sample.quiet 7%N)
           (PostBorrow (Some (mkLoan Sample.bob_id Sample.faust_id)))
           Sample.library (fun _ => eq_refl) eq_refl).
Defined.

(** X4. A lookup that the store fails to answer is reported as "not
    found": with the first store call failing, login, fetch and return
    answer 404 whatever the collections hold, and so does a borrow (for a
    request whose body and identifiers parse). *)
Theorem failed_lookup_is_not_found :
  forall (e : Env) (db : DB),
    storeError e 0 = true ->
    (forall req, status (fst (loginUser e (Some req) db)) = StatusNotFound) /\
    (forall id, ObjectIDFromHex id <> None ->
                status (fst (getUser e id db)) = StatusNotFound) /\
    (forall loan,
        ObjectIDFromHex (body_UserID loan) <> None ->
        ObjectIDFromHex (body_BookID loan) <> None ->
        status (fst (borrowBook e (Some loan) db)) = StatusNotFound /\
        status (fst (returnBook e (Some loan) db)) = StatusNotFound).
Proof.
  intros e db Hdown. split; [|split].
  - intros req. unfold loginUser, FindOne. now rewrite Hdown.
  - intros id Hid. unfold getUser, FindOne.
    destruct (ObjectIDFromHex id); [now rewrite Hdown | contradiction].
  - intros loan Hu Hb. unfold borrowBook, returnBook, FindOne.
    destruct (ObjectIDFromHex (body_UserID loan)); [|contradiction].
    destruct (ObjectIDFromHex (body_BookID loan)); [|contradiction].
    rewrite Hdown. split; reflexivity.
Qed.

Lemma failed_lookup_is_not_found_witness :
  (* alice exists, yet a fetch during an outage says she does not *)
  status (fst (getUser (Sample.failing 0 7%N) Sample.alice_id Sample.library)) =
  StatusNotFound.
Proof.
  destruct (failed_lookup_is_not_found (Sample.failing 0 7%N) Sample.library
              eq_refl) as (_ & Hget & _).
  apply Hget. discriminate.
Defined.

(** ** Registering, then logging in or fetching *)

Lemma find_existsb_false {D : Type} (filter : D -> bool) (c : list D) :
  existsb filter c = false -> find filter c = None.
Proof.
  induction c as [|d rest IH]; simpl; [reflexivity|].
  destruct (filter d); simpl; [discriminate | exact IH].
Qed.

Lemma find_app_last {D : Type} (filter : D -> bool) (c : list D) (d : D) :
  find filter c = None -> filter d = true -> find filter (c ++ [d]) = Some d.
Proof.
  induction c as [|y rest IH]; simpl; intros Hnone Hd.
  - now rewrite Hd.
  - destruct (filter y); [discriminate | now apply IH].
Qed.

(** A registration answered with 201 passed the count, the hash and the
    insert, and appended the new user. *)
Lemma registerUser_inv (e : Env) (parsed : option Credentials) (db : DB) :
  status (fst (registerUser e parsed db)) = StatusCreated ->
  exists req hashed,
    parsed = Some req /\
    existsb (by_username (body_Username req)) (userCollection db) = false /\
    hashPassword e (body_Password req) = Some hashed /\
    ~ In (NewObjectID e) (map User_ID (userCollection db)) /\
    registerUser e parsed db =
    (reply StatusCreated
       (JObject [("inserted_id", JString (Hex (NewObjectID e)))]),
     mkDB (userCollection db ++
             [mkUser (NewObjectID e) (body_Username req) hashed []])
          (bookCollection db)).
Proof.
  unfold registerUser.
  destruct parsed as [req|]; [|discriminate].
  unfold CountDocuments. destruct (storeError e 0); [discriminate|].
  rewrite count_by_existsb.
  destruct (existsb _ _) eqn:Hname; [discriminate|].
  destruct (hashPassword e (body_Password req)) as [hashed|] eqn:Hhash;
    [|discriminate].
  destruct (InsertOne _ _ _ _ _ _) as [res|] eqn:Hres; [|discriminate].
  apply InsertOne_Some in Hres. destruct Hres as (_ & Hnew & ->).
  intros _. exists req, hashed. simpl in Hnew.
  split; [reflexivity|]. split; [exact Hname|]. split; [exact Hhash|].
  split; [exact Hnew | reflexivity].
Qed.

(** X5. Login answers 200 exactly when the request parses, the first
    stored user with that username is found and bcrypt accepts the
    password against that user's hash; the answer then carries a message
    and that user's identifier, and nothing else. *)
Theorem loginUser_ok_iff :
  forall (e : Env) (parsed : option Credentials) (db : DB),
    status (fst (loginUser e parsed db)) = StatusOK <->
    exists req user,
      parsed = Some req /\
      FindOne e 0 (by_username (body_Username req)) (userCollection db)
        = Some user /\
      CompareHashAndPassword e (Password user) (body_Password req) = true /\
      body (fst (loginUser e parsed db)) =
        JObject [("message", JString "Giriş başarılı");
                 ("user_id", JString (Hex (User_ID user)))].
Proof.
  intros e parsed db. unfold loginUser, checkPasswordHash. split.
  - destruct parsed as [req|]; [|discriminate].
    destruct (FindOne _ _ _ _) as [user|] eqn:Hfind; [|discriminate].
    destruct (CompareHashAndPassword _ _ _) eqn:Hcheck; [|discriminate].
    intros _. exists req, user.
    split; [reflexivity|]. split; [exact Hfind|]. split; [exact Hcheck|].
    reflexivity.
  - intros (req & user & -> & Hfind & Hcheck & _).
    now rewrite Hfind, Hcheck.
Qed.

Lemma loginUser_ok_iff_witness :
  status (fst (loginUser (Sample.quiet 7%N)
                 (Some (mkCredentials "alice" "pw1")) Sample.library)) =
  StatusOK.
Proof.
  apply (proj2 (loginUser_ok_iff (Sample.quiet 7%N)
                  (Some (mkCredentials "alice" "pw1")) Sample.library)).
  exists (mkCredentials "alice" "pw1"), Sample.alice.
  repeat split.
Defined.

(** X6. After a registration answered with 201, a login under that
    username (the store answering) is decided by bcrypt alone, on the hash
    that the registration stored: 200 with the identifier the registration
    returned if bcrypt accepts the password, 401 if it does not. *)
Theorem register_then_login :
  forall (e e' : Env) (req : Credentials) (db : DB) (password : string),
    status (fst (registerUser e (Some req) db)) = StatusCreated ->
    storeError e' 0 = false ->
    let db' := snd (registerUser e (Some req) db) in
    exists hashed,
      hashPassword e (body_Password req) = Some hashed /\
      loginUser e' (Some (mkCredentials (body_Username req) password)) db' =
      if CompareHashAndPassword e' hashed password
      then (reply StatusOK
              (JObject [("message", JString "Giriş başarılı");
                        ("user_id", JString (Hex (NewObjectID e)))]), db')
      else (reply StatusUnauthorized (errorBody "Hatalı şifre"), db').
Proof.
  intros e e' req db password Hcreated Hup db'. subst db'.
  destruct (registerUser_inv e (Some req) db Hcreated)
    as (req' & hashed & Hreq & Hname & Hhash & _ & ->).
  injection Hreq as <-. exists hashed. split; [exact Hhash|].
  unfold loginUser, FindOne, checkPasswordHash. simpl. rewrite Hup.
  rewrite (find_app_last _ _
             (mkUser (NewObjectID e) (body_Username req) hashed [])
             (find_existsb_false _ _ Hname)).
  - simpl. now destruct (CompareHashAndPassword e' hashed password).
  - unfold by_username. simpl. apply String.eqb_refl.
Qed.

Lemma register_then_login_witness :
  let db' := snd (registerUser (Sample.quiet 161%N)
                    (Some (mkCredentials "alice" "pw1")) Sample.empty) in
  status (fst (loginUser (Sample.quiet 7%N)
                 (Some (mkCredentials "alice" "pw1")) db')) = StatusOK /\
  status (fst (loginUser (Sample.quiet 7%N)
                 (Some (mkCredentials "alice" "guess")) db')) =
  StatusUnauthorized.
Proof.
  split.
  - destruct (register_then_login (Sample.quiet 161%N) (Sample.quiet 7%N)
                (mkCredentials "alice" "pw1") Sample.empty "pw1"
                eq_refl eq_refl) as (hashed & Hhash & Hlogin).
    injection Hhash as <-.
    exact (f_equal (fun out => status (fst out)) Hlogin).
  - destruct (register_then_login (Sample.quiet 161%N) (Sample.quiet 7%N)
                (mkCredentials "alice" "pw1") Sample.empty "guess"
                eq_refl eq_refl) as (hashed & Hhash & Hlogin).
    injection Hhash as <-.
    exact (f_equal (fun out => status (fst out)) Hlogin).
Defined.

(** X7. The identifier that a registration writes into its 201 answer is
    the one under which the user can be fetched: sent back as the path
    parameter it parses to the stored document, and the fetch (the store
    answering) returns the username and an empty book list. *)
Theorem register_then_getUser :
  forall (e e' : Env) (req : Credentials) (db : DB),
    status (fst (registerUser e (Some req) db)) = StatusCreated ->
    validID (NewObjectID e) ->
    storeError e' 0 = false ->
    let db' := snd (registerUser e (Some req) db) in
    body (fst (registerUser e (Some req) db)) =
      JObject [("inserted_id", JString (Hex (NewObjectID e)))] /\
    getUser e' (Hex (NewObjectID e)) db' =
      (reply StatusOK
         (JObject [("id", JString (Hex (NewObjectID e)));
                   ("username", JString (body_Username req));
                   ("books", JArray [])]), db').
Proof.
  intros e e' req db Hcreated Hvalid Hup db'. subst db'.
  destruct (registerUser_inv e (Some req) db Hcreated)
    as (req' & hashed & Hreq & _ & _ & Hnew & ->).
  injection Hreq as <-. split; [reflexivity|].
  unfold getUser, FindOne. rewrite (ObjectIDFromHex_Hex _ Hvalid), Hup.
  cbn [snd userCollection].
  rewrite (find_app_last (user_by_id (NewObjectID e)) _
             (mkUser (NewObjectID e) (body_Username req) hashed [])).
  - reflexivity.
  - now apply (find_by_id_None User_ID).
  - apply ObjectID_eqb_refl.
Qed.

Lemma register_then_getUser_witness :
  getUser (Sample.quiet 7%N) "0000000000000000000000a1"
    (snd (registerUser (Sample.quiet 161%N)
            (Some (mkCredentials "alice" "pw1")) Sample.empty)) =
  (reply StatusOK
     (JObject [("id", JString "0000000000000000000000a1");
               ("username", JString "alice");
               ("books", JArray [])]),
   snd (registerUser (Sample.quiet 161%N)
          (Some (mkCredentials "alice" "pw1")) Sample.empty)).
Proof.
  assert (validID 161%N) as Hvalid by reflexivity.
  exact (proj2 (register_then_getUser (Sample.quiet 161%N) (Sample.quiet 7%N)
                  (mkCredentials "alice" "pw1") Sample.empty
                  eq_refl Hvalid eq_refl)).
Defined.

(** ** Lending: the paths that write *)

(** The answer and the store of a borrow that passes every test. *)
Lemma borrowBook_passes (e : Env) (loan : Loan) (db : DB) (u b : ObjectID)
  (user : User) (book : Book) :
  reliable e ->
  ObjectIDFromHex (body_UserID loan) = Some u ->
  ObjectIDFromHex (body_BookID loan) = Some b ->
  find (user_by_id u) (userCollection db) = Some user ->
  List.length (Books user) < 2 ->
  find (book_by_id b) (bookCollection db) = Some book ->
  BorrowerID book = None ->
  borrowBook e (Some loan) db =
  (reply StatusOK (JObject [("message", JString "Kitap başarıyla ödünç alındı")]),
   mkDB (updateFirst (user_by_id u) (push_books b) (userCollection db))
        (updateFirst (book_by_id b) (set_borrower_id (Some u))
           (bookCollection db))).
Proof.
  intros He Hu Hb Huser Hlen Hbook Hfree. apply Nat.leb_gt in Hlen.
  unfold borrowBook, FindOne, UpdateOne.
  now rewrite Hu, Hb, !He, Huser, Hlen, Hbook, Hfree.
Qed.

(** X8. A stored user below the limit who asks for a stored, free book
    gets it (the store answering): the answer is 200, the book then names
    the user as its borrower, the book is the last entry of the user's
    list, and no document is added or removed. *)
Theorem borrow_succeeds :
  forall (e : Env) (loan : Loan) (db : DB) (u b : ObjectID)
         (user : User) (book : Book),
    reliable e ->
    ObjectIDFromHex (body_UserID loan) = Some u ->
    ObjectIDFromHex (body_BookID loan) = Some b ->
    find (user_by_id u) (userCollection db) = Some user ->
    List.length (Books user) < 2 ->
    find (book_by_id b) (bookCollection db) = Some book ->
    BorrowerID book = None ->
    let db' := snd (borrowBook e (Some loan) db) in
    fst (borrowBook e (Some loan) db) =
      reply StatusOK
        (JObject [("message", JString "Kitap başarıyla ödünç alındı")]) /\
    find (book_by_id b) (bookCollection db') =
      Some (mkBook (Book_ID book) (Title book) (Some u)) /\
    find (user_by_id u) (userCollection db') =
      Some (mkUser (User_ID user) (Username user) (Password user)
              (Books user ++ [b])) /\
    List.length (userCollection db') = List.length (userCollection db) /\
    List.length (bookCollection db') = List.length (bookCollection db).
Proof.
  intros e loan db u b user book He Hu Hb Huser Hlen Hbook Hfree db'.
  subst db'.
  rewrite (borrowBook_passes e loan db u b user book He Hu Hb Huser Hlen
             Hbook Hfree).
  cbn [fst snd userCollection bookCollection].
  split; [reflexivity|]. split; [|split; [|split]].
  - apply (find_updateFirst _ (set_borrower_id (Some u)) _ _ Hbook).
    apply find_some in Hbook. exact (proj2 Hbook).
  - apply (find_updateFirst _ (push_books b) _ _ Huser).
    apply find_some in Huser. exact (proj2 Huser).
  - apply updateFirst_length.
  - apply updateFirst_length.
Qed.

Lemma borrow_succeeds_witness :
  snd (borrowBook (Sample.quiet 7%N)
         (Some (mkLoan Sample.bob_id Sample.faust_id)) Sample.library) =
    mkDB [Sample.alice; mkUser 178%N "bob" "$2a$10$pw2" [3331%N]]
         [Sample.dune; Sample.emma; mkBook 3331%N "Faust" (Some 178%N)] /\
  fst (borrowBook (Sample.quiet 7%N)
         (Some (mkLoan Sample.bob_id Sample.faust_id)) Sample.library) =
    reply StatusOK
      (JObject [("message", JString "Kitap başarıyla ödünç alındı")]).
Proof.
  split; [reflexivity|].
  apply (borrow_succeeds (Sample.quiet 7%N)
           (mkLoan Sample.bob_id Sample.faust_id) Sample.library
           178%N 3331%N Sample.bob Sample.faust
           (fun _ => eq_refl) eq_refl eq_refl eq_refl (le_S 1 1 (le_n 1))
           eq_refl eq_refl).
Defined.

(** X9. When every test of a borrow passes and the write to the book goes
    through but the push onto the user's list fails, the answer is 500 and
    the handler tries to undo the first write: if that compensating write
    goes through, the store is exactly the one from before the request;
    if it fails too, the book stays marked as borrowed by the user while
    the document of the user, list included, is the one from before the
    request. *)
Theorem borrow_compensation :
  forall (e : Env) (loan : Loan) (db : DB) (u b : ObjectID)
         (user : User) (book : Book),
    storeError e 0 = false -> storeError e 1 = false ->
    storeError e 2 = false -> storeError e 3 = true ->
    ObjectIDFromHex (body_UserID loan) = Some u ->
    ObjectIDFromHex (body_BookID loan) = Some b ->
    find (user_by_id u) (userCollection db) = Some user ->
    List.length (Books user) < 2 ->
    find (book_by_id b) (bookCollection db) = Some book ->
    BorrowerID book = None ->
    let db' := snd (borrowBook e (Some loan) db) in
    status (fst (borrowBook e (Some loan) db)) = StatusInternalServerError /\
    userCollection db' = userCollection db /\
    (storeError e 4 = false -> db' = db) /\
    (storeError e 4 = true ->
     find (book_by_id b) (bookCollection db') =
       Some (mkBook (Book_ID book) (Title book) (Some u)) /\
     find (user_by_id u) (userCollection db') = Some user).
Proof.
  intros e loan db u b user book H0 H1 H2 H3 Hu Hb Huser Hlen Hbook Hfree db'.
  subst db'. apply Nat.leb_gt in Hlen.
  assert (Hid : book_by_id b (set_borrower_id (Some u) book) = true).
  { apply find_some in Hbook. exact (proj2 Hbook). }
  unfold borrowBook, FindOne, UpdateOne.
  rewrite Hu, Hb, H0, H1, H2, H3, Huser, Hlen, Hbook, Hfree.
  split; [reflexivity|]. split; [reflexivity|]. split.
  - intros ->. cbn [snd].
    rewrite (updateFirst_undo _ _ _ _ _ Hbook Hid
               (clear_set_borrower u book Hfree)).
    now destruct db.
  - intros ->. cbn [snd userCollection bookCollection]. split; [|exact Huser].
    exact (find_updateFirst _ (set_borrower_id (Some u)) _ _ Hbook Hid).
Qed.

Lemma borrow_compensation_witness :
  (* bob asks for the free book while the push onto his list fails *)
  status (fst (borrowBook (Sample.failing 3 7%N)
                 (Some (mkLoan Sample.bob_id Sample.faust_id))
                 Sample.library)) = StatusInternalServerError /\
  snd (borrowBook (Sample.failing 3 7%N)
         (Some (mkLoan Sample.bob_id Sample.faust_id)) Sample.library) =
  Sample.library.
Proof.
  destruct (borrow_compensation (Sample.failing 3 7%N)
              (mkLoan Sample.bob_id Sample.faust_id) Sample.library
              178%N 3331%N Sample.bob Sample.faust
              eq_refl eq_refl eq_refl eq_refl eq_refl eq_refl eq_refl
              (le_S 1 1 (le_n 1)) eq_refl eq_refl)
    as (Hstatus & _ & Hundone & _).
  split; [exact Hstatus | exact (Hundone eq_refl)].
Defined.

(** X10. A return has no compensating write. When the book is cleared
    but the pull from the user's list fails, the answer is 500, the book
    is free and the users collection is as it was; a return of that book
    served next, on the store this failure left, by anyone and in any
    environment, is not answered 200 and leaves the users collection as it
    was. *)
Theorem failed_return_leaves_entry :
  forall (e : Env) (loan : Loan) (db : DB) (u b : ObjectID) (book : Book),
    storeError e 0 = false -> storeError e 1 = false ->
    storeError e 2 = true ->
    ObjectIDFromHex (body_UserID loan) = Some u ->
    ObjectIDFromHex (body_BookID loan) = Some b ->
    find (book_by_id b) (bookCollection db) = Some book ->
    BorrowerID book = Some u ->
    let db' := snd (returnBook e (Some loan) db) in
    status (fst (returnBook e (Some loan) db)) = StatusInternalServerError /\
    userCollection db' = userCollection db /\
    find (book_by_id b) (bookCollection db') =
      Some (mkBook (Book_ID book) (Title book) None) /\
    forall (e' : Env) (again : Loan),
      ObjectIDFromHex (body_BookID again) = Some b ->
      status (fst (returnBook e' (Some again) db')) <> StatusOK /\
      userCollection (snd (returnBook e' (Some again) db')) =
        userCollection db.
Proof.
  intros e loan db u b book H0 H1 H2 Hu Hb Hbook Hheld db'. subst db'.
  assert (Hid : book_by_id b (set_borrower_id None book) = true).
  { apply find_some in Hbook. exact (proj2 Hbook). }
  pose proof (find_updateFirst _ (set_borrower_id None) _ _ Hbook Hid) as Hfree.
  assert (Hout : returnBook e (Some loan) db =
                 (reply StatusInternalServerError
                    (errorBody "Kullanıcı güncellenemedi"),
                  mkDB (userCollection db)
                    (updateFirst (book_by_id b) (set_borrower_id None)
                       (bookCollection db)))).
  { unfold returnBook, FindOne, UpdateOne.
    now rewrite Hu, Hb, H0, H1, H2, Hbook, Hheld, ObjectID_eqb_refl. }
  rewrite Hout. cbn [fst snd status userCollection bookCollection].
  split; [reflexivity|]. split; [reflexivity|]. split; [exact Hfree|].
  intros e' again Hb'.
  destruct (returnBook_inv e' (Some again)
              (mkDB (userCollection db)
                 (updateFirst (book_by_id b) (set_borrower_id None)
                    (bookCollection db))))
    as [(Husers & _ & Hno) |
        (again' & u' & b' & book' & Hagain & _ & Hb'' & Hbook' & Hheld' & _)].
  - split; [exact Hno | exact Husers].
  - exfalso. injection Hagain as <-.
    rewrite Hb' in Hb''. injection Hb'' as <-.
    cbn [bookCollection] in Hbook'. rewrite Hfree in Hbook'.
    injection Hbook' as <-. discriminate Hheld'.
Qed.

Lemma failed_return_leaves_entry_witness :
  (* alice returns Dune while the pull from her list fails, then retries *)
  let db' := snd (returnBook (Sample.failing 2 7%N)
                    (Some (mkLoan Sample.alice_id Sample.dune_id))
                    Sample.library) in
  db' = mkDB [Sample.alice; Sample.bob]
             [mkBook 3329%N "Dune" None; Sample.emma; Sample.faust] /\
  status (fst (returnBook (Sample.quiet 7%N)
                 (Some (mkLoan Sample.alice_id Sample.dune_id)) db')) <>
  StatusOK.
Proof.
  split; [reflexivity|].
  destruct (failed_return_leaves_entry (Sample.failing 2 7%N)
              (mkLoan Sample.alice_id Sample.dune_id) Sample.library
              161%N 3329%N Sample.dune
              eq_refl eq_refl eq_refl eq_refl eq_refl eq_refl eq_refl)
    as (_ & _ & _ & Hretry).
  exact (proj1 (Hretry (Sample.quiet 7%N)
                  (mkLoan Sample.alice_id Sample.dune_id) eq_refl)).
Defined.

(** ** Lending: requests in a row *)

(** X11. Two borrows by the same user answered with 200, one right after
    the other, fill the user's list: the next borrow by that user is
    answered with 400 and writes nothing, whichever book it names. *)
Theorem third_borrow_refused :
  forall (e1 e2 e3 : Env) (first second third : Loan) (db : DB) (u : ObjectID),
    ObjectIDFromHex (body_UserID first) = Some u ->
    ObjectIDFromHex (body_UserID second) = Some u ->
    ObjectIDFromHex (body_UserID third) = Some u ->
    status (fst (borrowBook e1 (Some first) db)) = StatusOK ->
    let db1 := snd (borrowBook e1 (Some first) db) in
    status (fst (borrowBook e2 (Some second) db1)) = StatusOK ->
    let db2 := snd (borrowBook e2 (Some second) db1) in
    storeError e3 0 = false ->
    status (fst (borrowBook e3 (Some third) db2)) = StatusBadRequest /\
    snd (borrowBook e3 (Some third) db2) = db2.
Proof.
  intros e1 e2 e3 first second third db u Hu1 Hu2 Hu3 Hok1 db1 Hok2 db2 Hup.
  subst db2 db1.
  destruct (borrowBook_inv e1 (Some first) db)
    as [(_ & _ & Hno) |
        (l1 & u1 & b1 & user & book1 & Hl1 & Hu1' & _ & Huser & _ & _ & _
         & Hout1)]; [contradiction|].
  injection Hl1 as <-. rewrite Hu1 in Hu1'. injection Hu1' as <-.
  rewrite Hout1 in *. cbn [snd] in *.
  destruct (borrowBook_inv e2 (Some second)
              (mkDB (updateFirst (user_by_id u) (push_books b1) (userCollection db))
                    (updateFirst (book_by_id b1) (set_borrower_id (Some u))
                       (bookCollection db))))
    as [(_ & _ & Hno) |
        (l2 & u2 & b2 & user1 & book2 & Hl2 & Hu2' & _ & Huser1 & _ & _ & _
         & Hout2)]; [contradiction|].
  injection Hl2 as <-. rewrite Hu2 in Hu2'. injection Hu2' as <-.
  rewrite Hout2. cbn [snd userCollection] in *.
  assert (Hid : forall b x, user_by_id u (push_books b x) = user_by_id u x)
    by reflexivity.
  assert (Huser1' : user1 = push_books b1 user).
  { pose proof (find_updateFirst _ (push_books b1) _ _ Huser) as H.
    rewrite Hid in H. apply find_some in Huser.
    rewrite (H (proj2 Huser)) in Huser1. now injection Huser1. }
  subst user1.
  pose proof (find_updateFirst _ (push_books b2) _ _ Huser1) as Hfull.
  rewrite Hid in Hfull. apply find_some in Huser1.
  specialize (Hfull (proj2 Huser1)).
  unfold borrowBook, FindOne. rewrite Hu3, Hup. cbn [userCollection].
  rewrite Hfull.
  assert ((2 <=? List.length (Books (push_books b2 (push_books b1 user))))
          = true) as ->.
  { apply Nat.leb_le. simpl. rewrite !length_app. simpl. lia. }
  destruct (ObjectIDFromHex (body_BookID third)); split; reflexivity.
Qed.

Lemma third_borrow_refused_witness :
  let ask id := Some (mkLoan Sample.bob_id id) in
  let db0 := mkDB [Sample.bob]
                  [mkBook 3329%N "Dune" None; mkBook 3330%N "Emma" None;
                   Sample.faust] in
  let db1 := snd (borrowBook (Sample.quiet 7%N) (ask Sample.dune_id) db0) in
  let db2 := snd (borrowBook (Sample.quiet 7%N) (ask Sample.emma_id) db1) in
  status (fst (borrowBook (Sample.quiet 7%N) (ask Sample.faust_id) db2)) =
    StatusBadRequest /\
  snd (borrowBook (Sample.quiet 7%N) (ask Sample.faust_id) db2) = db2.
Proof.
  exact (third_borrow_refused (Sample.quiet 7%N) (Sample.quiet 7%N)
           (Sample.quiet 7%N)
           (mkLoan Sample.bob_id Sample.dune_id)
           (mkLoan Sample.bob_id Sample.emma_id)
           (mkLoan Sample.bob_id Sample.faust_id)
           (mkDB [Sample.bob]
                 [mkBook 3329%N "Dune" None; mkBook 3330%N "Emma" None;
                  Sample.faust])
           178%N eq_refl eq_refl eq_refl eq_refl eq_refl eq_refl).
Defined.

(** X12. Once a borrow has been answered with 200, the book is refused to
    everyone: a borrow of the same book by any user stored afterwards (the
    store answering) is answered with 400 and writes nothing. *)
Theorem borrowed_book_is_refused :
  forall (e e' : Env) (loan next : Loan) (db : DB) (b u' : ObjectID)
         (user' : User),
    status (fst (borrowBook e (Some loan) db)) = StatusOK ->
    let db' := snd (borrowBook e (Some loan) db) in
    reliable e' ->
    ObjectIDFromHex (body_BookID loan) = Some b ->
    ObjectIDFromHex (body_BookID next) = Some b ->
    ObjectIDFromHex (body_UserID next) = Some u' ->
    find (user_by_id u') (userCollection db') = Some user' ->
    status (fst (borrowBook e' (Some next) db')) = StatusBadRequest /\
    snd (borrowBook e' (Some next) db') = db'.
Proof.
  intros e e' loan next db b u' user' Hok db' He' Hb Hb' Hu' Huser'.
  subst db'.
  destruct (borrowBook_inv e (Some loan) db)
    as [(_ & _ & Hno) |
        (l & u & b0 & user & book & Hl & _ & Hb0 & _ & _ & Hbook & _ & Hout)];
    [contradiction|].
  injection Hl as <-. rewrite Hb in Hb0. injection Hb0 as <-.
  rewrite Hout in *. cbn [snd userCollection bookCollection] in *.
  assert (Hid : book_by_id b (set_borrower_id (Some u) book) = true).
  { apply find_some in Hbook. exact (proj2 Hbook). }
  pose proof (find_updateFirst _ (set_borrower_id (Some u)) _ _ Hbook Hid)
    as Hheld.
  unfold borrowBook, FindOne. rewrite Hu', Hb', !He'.
  cbn [userCollection bookCollection]. rewrite Huser', Hheld.
  destruct (2 <=? List.length (Books user')); split; reflexivity.
Qed.

Lemma borrowed_book_is_refused_witness :
  (* bob takes the free book and asks for it once more *)
  let db' := snd (borrowBook (Sample.quiet 7%N)
                    (Some (mkLoan Sample.bob_id Sample.faust_id))
                    Sample.library) in
  status (fst (borrowBook (Sample.quiet 7%N)
                 (Some (mkLoan Sample.bob_id Sample.faust_id)) db')) =
  StatusBadRequest.
Proof.
  exact (proj1 (borrowed_book_is_refused (Sample.quiet 7%N) (Sample.quiet 7%N)
                  (mkLoan Sample.bob_id Sample.faust_id)
                  (mkLoan Sample.bob_id Sample.faust_id) Sample.library
                  3331%N 178%N (mkUser 178%N "bob" "$2a$10$pw2" [3331%N])
                  eq_refl (fun _ => eq_refl) eq_refl eq_refl eq_refl eq_refl)).
Defined.

(** X13. A return answered with 200 makes the book available again: the
    next borrow of it by any stored user below the limit (the store
    answering) is answered with 200, and the book then names that user. *)
Theorem returned_book_is_available :
  forall (e e' : Env) (loan next : Loan) (db : DB) (b u' : ObjectID)
         (user' : User),
    status (fst (returnBook e (Some loan) db)) = StatusOK ->
    let db' := snd (returnBook e (Some loan) db) in
    reliable e' ->
    ObjectIDFromHex (body_BookID loan) = Some b ->
    ObjectIDFromHex (body_BookID next) = Some b ->
    ObjectIDFromHex (body_UserID next) = Some u' ->
    find (user_by_id u') (userCollection db') = Some user' ->
    List.length (Books user') < 2 ->
    status (fst (borrowBook e' (Some next) db')) = StatusOK /\
    exists book,
      find (book_by_id b)
        (bookCollection (snd (borrowBook e' (Some next) db'))) = Some book /\
      BorrowerID book = Some u'.
Proof.
  intros e e' loan next db b u' user' Hok db' He' Hb Hb' Hu' Huser' Hlen.
  subst db'.
  destruct (returnBook_inv e (Some loan) db)
    as [(_ & _ & Hno) |
        (l & u & b0 & book & Hl & _ & Hb0 & Hbook & _ & Hout)];
    [contradiction|].
  injection Hl as <-. rewrite Hb in Hb0. injection Hb0 as <-.
  rewrite Hout in *. cbn [snd] in *.
  set (db' := mkDB (updateFirst (user_by_id u) (pull_books b) (userCollection db))
                   (updateFirst (book_by_id b) (set_borrower_id None)
                      (bookCollection db))) in *.
  assert (Hid : forall v x, book_by_id b (set_borrower_id v x) = book_by_id b x)
    by reflexivity.
  pose proof (find_updateFirst _ (set_borrower_id None) _ _ Hbook) as Hfree.
  rewrite Hid in Hfree. pose proof (find_some _ _ Hbook) as [_ Hmatch].
  specialize (Hfree Hmatch).
  rewrite (borrowBook_passes e' next db' u' b user' (set_borrower_id None book)
             He' Hu' Hb' Huser' Hlen Hfree eq_refl).
  split; [reflexivity|]. cbn [snd bookCollection].
  exists (set_borrower_id (Some u') (set_borrower_id None book)).
  split; [|reflexivity].
  apply (find_updateFirst _ (set_borrower_id (Some u')) _ _ Hfree).
  now rewrite Hid.
Qed.

Lemma returned_book_is_available_witness :
  (* alice gives Dune back and bob takes it *)
  let db' := snd (returnBook (Sample.quiet 7%N)
                    (Some (mkLoan Sample.alice_id Sample.dune_id))
                    Sample.library) in
  status (fst (borrowBook (Sample.quiet 7%N)
                 (Some (mkLoan Sample.bob_id Sample.dune_id)) db')) = StatusOK.
Proof.
  exact (proj1 (returned_book_is_available (Sample.quiet 7%N)
                  (Sample.quiet 7%N)
                  (mkLoan Sample.alice_id Sample.dune_id)
                  (mkLoan Sample.bob_id Sample.dune_id) Sample.library
                  3329%N 178%N Sample.bob
                  eq_refl (fun _ => eq_refl) eq_refl eq_refl eq_refl eq_refl
                  (le_S 1 1 (le_n 1)))).
Defined.

(** ** Adding a book, deleting a user *)

Lemma addBook_inv (e : Env) (parsed : option NewBook) (db : DB) :
  status (fst (addBook e parsed db)) = StatusCreated ->
  exists req,
    parsed = Some req /\
    ~ In (NewObjectID e) (map Book_ID (bookCollection db)) /\
    addBook e parsed db =
    (reply StatusCreated
       (JObject [("inserted_id", JString (Hex (NewObjectID e)))]),
     mkDB (userCollection db)
          (bookCollection db ++ [mkBook (NewObjectID e) (body_Title req) None])).
Proof.
  unfold addBook.
  destruct parsed as [req|]; [|discriminate].
  destruct (InsertOne _ _ _ _ _ _) as [res|] eqn:Hres; [|discriminate].
  apply InsertOne_Some in Hres. destruct Hres as (_ & Hnew & ->).
  intros _. exists req. simpl in Hnew.
  split; [reflexivity|]. split; [exact Hnew | reflexivity].
Qed.

Lemma updateFirst_app_last {D : Type} (filter : D -> bool) (update : D -> D)
  (c : list D) (d : D) :
  find filter c = None -> filter d = true ->
  updateFirst filter update (c ++ [d]) = c ++ [update d].
Proof.
  induction c as [|y rest IH]; simpl; intros Hnone Hd.
  - now rewrite Hd.
  - destruct (filter y); [discriminate|]. now rewrite IH.
Qed.

(** X14. The identifier that adding a book writes into its 201 answer is
    the one under which the book can be borrowed: the book is appended
    with no borrower, every earlier document is left as it was, and a
    stored user below the limit who sends that identifier back (the store
    answering) gets the book. *)
Theorem addBook_then_borrow :
  forall (e e' : Env) (req : NewBook) (db : DB) (userID : string)
         (u : ObjectID) (user : User),
    status (fst (addBook e (Some req) db)) = StatusCreated ->
    validID (NewObjectID e) ->
    reliable e' ->
    ObjectIDFromHex userID = Some u ->
    find (user_by_id u) (userCollection db) = Some user ->
    List.length (Books user) < 2 ->
    let db' := snd (addBook e (Some req) db) in
    db' = mkDB (userCollection db)
            (bookCollection db ++
               [mkBook (NewObjectID e) (body_Title req) None]) /\
    body (fst (addBook e (Some req) db)) =
      JObject [("inserted_id", JString (Hex (NewObjectID e)))] /\
    borrowBook e' (Some (mkLoan userID (Hex (NewObjectID e)))) db' =
      (reply StatusOK
         (JObject [("message", JString "Kitap başarıyla ödünç alındı")]),
       mkDB (updateFirst (user_by_id u) (push_books (NewObjectID e))
               (userCollection db))
            (bookCollection db ++
               [mkBook (NewObjectID e) (body_Title req) (Some u)])).
Proof.
  intros e e' req db userID u user Hcreated Hvalid He' Hu Huser Hlen db'.
  subst db'.
  destruct (addBook_inv e (Some req) db Hcreated) as (req' & Hreq & Hnew & ->).
  injection Hreq as <-. cbn [fst snd body].
  split; [reflexivity|]. split; [reflexivity|].
  apply (find_by_id_None Book_ID) in Hnew.
  set (new := mkBook (NewObjectID e) (body_Title req) None).
  assert (Hmatch : book_by_id (NewObjectID e) new = true)
    by apply ObjectID_eqb_refl.
  rewrite (borrowBook_passes e' (mkLoan userID (Hex (NewObjectID e)))
             (mkDB (userCollection db) (bookCollection db ++ [new]))
             u (NewObjectID e) user new He' Hu
             (ObjectIDFromHex_Hex _ Hvalid) Huser Hlen
             (find_app_last _ _ new Hnew Hmatch) eq_refl).
  cbn [userCollection bookCollection].
  now rewrite (updateFirst_app_last _ _ _ new Hnew Hmatch).
Qed.

Lemma addBook_then_borrow_witness :
  (* "Gulliver" is added to the sample library under d05 and bob takes it *)
  let db' := snd (addBook (Sample.quiet 3333%N) (Some (mkNewBook "Gulliver"))
                    Sample.library) in
  borrowBook (Sample.quiet 7%N)
    (Some (mkLoan Sample.bob_id "000000000000000000000d05")) db' =
  (reply StatusOK
     (JObject [("message", JString "Kitap başarıyla ödünç alındı")]),
   mkDB [Sample.alice; mkUser 178%N "bob" "$2a$10$pw2" [3333%N]]
        [Sample.dune; Sample.emma; Sample.faust;
         mkBook 3333%N "Gulliver" (Some 178%N)]).
Proof.
  assert (validID 3333%N) as Hvalid by reflexivity.
  exact (proj2 (proj2 (addBook_then_borrow (Sample.quiet 3333%N)
                         (Sample.quiet 7%N) (mkNewBook "Gulliver")
                         Sample.library Sample.bob_id 178%N Sample.bob
                         eq_refl Hvalid (fun _ => eq_refl) eq_refl eq_refl
                         (le_S 1 1 (le_n 1))))).
Defined.

Lemma deleteFirst_find_none {D : Type} (filter : D -> bool) (c : list D) :
  find filter c = None -> fst (deleteFirst filter c) = 0.
Proof.
  induction c as [|d rest IH]; simpl; [reflexivity|].
  destruct (filter d); [discriminate|]. intros H. specialize (IH H).
  now destruct (deleteFirst filter rest).
Qed.

Lemma deleteFirst_by_id_gone (id : ObjectID) (c : list User) :
  NoDup (map User_ID c) ->
  fst (deleteFirst (user_by_id id) c) <> 0 ->
  find (user_by_id id) (snd (deleteFirst (user_by_id id) c)) = None.
Proof.
  induction c as [|d rest IH]; simpl; [congruence|].
  intros Hnd. inversion Hnd as [|? ? Hnotin Hnd']; subst.
  destruct (user_by_id id d) eqn:E; simpl.
  - intros _. apply (find_by_id_None User_ID).
    apply ObjectID_eqb_eq in E. now rewrite <- E.
  - specialize (IH Hnd').
    destruct (deleteFirst (user_by_id id) rest) as [n rest']. simpl in *.
    rewrite E. exact IH.
Qed.

(** X15. With user identifiers unique, a delete answered with 200 takes
    the user away for good: a fetch of that identifier is answered with
    404, and a second delete is not answered with 200 and writes
    nothing. *)
Theorem deleted_user_is_gone :
  forall (e e' : Env) (id : string) (db : DB),
    NoDup (map User_ID (userCollection db)) ->
    status (fst (deleteUser e id db)) = StatusOK ->
    let db' := snd (deleteUser e id db) in
    status (fst (getUser e' id db')) = StatusNotFound /\
    status (fst (deleteUser e' id db')) <> StatusOK /\
    (storeError e' 0 = false ->
     status (fst (deleteUser e' id db')) = StatusNotFound) /\
    snd (deleteUser e' id db') = db'.
Proof.
  intros e e' id db Hnd Hok db'. subst db'.
  assert (exists objID,
             ObjectIDFromHex id = Some objID /\
             snd (deleteUser e id db) =
               mkDB (snd (deleteFirst (user_by_id objID) (userCollection db)))
                    (bookCollection db) /\
             fst (deleteFirst (user_by_id objID) (userCollection db)) <> 0)
    as (objID & Hid & -> & Hcount).
  { revert Hok. unfold deleteUser.
    destruct (ObjectIDFromHex id) as [objID|]; [|discriminate].
    destruct (DeleteOne _ _ _ _) as [res|] eqn:Hres; [|discriminate].
    apply DeleteOne_Some in Hres. destruct Hres as [_ ->].
    destruct (fst _ =? 0) eqn:Hcount; [discriminate|].
    intros _. exists objID. apply Nat.eqb_neq in Hcount. now repeat split. }
  pose proof (deleteFirst_by_id_gone objID _ Hnd Hcount) as Hgone.
  set (db' := mkDB _ _) in *.
  assert (Hget : status (fst (getUser e' id db')) = StatusNotFound).
  { unfold getUser, FindOne. rewrite Hid. subst db'. cbn [userCollection].
    rewrite Hgone. now destruct (storeError e' 0). }
  assert (Hdel : status (fst (deleteUser e' id db')) <> StatusOK /\
                 (storeError e' 0 = false ->
                  status (fst (deleteUser e' id db')) = StatusNotFound)).
  { unfold deleteUser, DeleteOne. rewrite Hid.
    destruct (storeError e' 0); [split; [discriminate | discriminate]|].
    subst db'. cbn [userCollection].
    rewrite (deleteFirst_find_none _ _ Hgone). split; [discriminate | reflexivity]. }
  split; [exact Hget|]. split; [exact (proj1 Hdel)|]. split; [exact (proj2 Hdel)|].
  apply deleteUser_refused. exact (proj1 Hdel).
Qed.

Lemma deleted_user_is_gone_witness :
  let db' := snd (deleteUser (Sample.quiet 7%N) Sample.alice_id
                    Sample.library) in
  status (fst (getUser (Sample.quiet 7%N) Sample.alice_id db')) =
    StatusNotFound /\
  status (fst (deleteUser (Sample.quiet 7%N) Sample.alice_id db')) =
    StatusNotFound.
Proof.
  assert (NoDup (map User_ID (userCollection Sample.library))) as Hnd.
  { constructor; [simpl; intros [H | []]; discriminate H|].
    constructor; [intros [] | constructor]. }
  destruct (deleted_user_is_gone (Sample.quiet 7%N) (Sample.quiet 7%N)
              Sample.alice_id Sample.library Hnd eq_refl)
    as (Hget & _ & Hdel & _).
  split; [exact Hget | exact (Hdel eq_refl)].
Defined.

(** ** What no request rewrites *)

Section Projections.
Context {D A : Type}.
Variable proj : D -> A.

Lemma updateFirst_map (filter : D -> bool) (update : D -> D) (c : list D) :
  (forall d, proj (update d) = proj d) ->
  map proj (updateFirst filter update c) = map proj c.
Proof.
  intros Hkeep. induction c as [|d rest IH]; simpl; [reflexivity|].
  destruct (filter d); simpl; [rewrite Hkeep | rewrite IH]; reflexivity.
Qed.

Lemma deleteFirst_map_NoDup (filter : D -> bool) (c : list D) :
  NoDup (map proj c) -> NoDup (map proj (snd (deleteFirst filter c))).
Proof.
  induction c as [|d rest IH]; simpl; [tauto|].
  intros Hnd. inversion Hnd as [|? ? Hnotin Hnd']; subst.
  destruct (filter d); simpl; [assumption|].
  pose proof (deleteFirst_In filter rest) as Hin.
  destruct (deleteFirst filter rest) as [n rest']; simpl in *.
  constructor; [|now apply IH].
  intros H. apply in_map_iff in H. destruct H as (y & Hy & Hiny).
  apply Hnotin. rewrite <- Hy. apply in_map. now apply Hin.
Qed.
End Projections.

Local Ltac kept :=
  cbn [snd userCollection bookCollection];
  rewrite ?(updateFirst_map credentials), ?(updateFirst_map catalogued)
    by reflexivity;
  split; reflexivity.

(** Borrowing and returning write the borrower of a book and the list of
    a user and nothing else, however the request ends. *)
Lemma borrowBook_keeps_records (e : Env) (parsed : option Loan) (db : DB) :
  map credentials (userCollection (snd (borrowBook e parsed db))) =
    map credentials (userCollection db) /\
  map catalogued (bookCollection (snd (borrowBook e parsed db))) =
    map catalogued (bookCollection db).
Proof.
  unfold borrowBook.
  destruct parsed as [loan|]; [|kept].
  destruct (ObjectIDFromHex (body_UserID loan)) as [u|]; [|kept].
  destruct (ObjectIDFromHex (body_BookID loan)) as [b|]; [|kept].
  destruct (FindOne e 0 _ _) as [user|]; [|kept].
  destruct (2 <=? _); [kept|].
  destruct (FindOne e 1 _ _) as [book|]; [|kept].
  destruct (BorrowerID book); [kept|].
  destruct (UpdateOne e 2 _ _ _) as [books'|] eqn:Hbooks; [|kept].
  apply UpdateOne_Some in Hbooks. destruct Hbooks as [_ ->].
  destruct (UpdateOne e 3 _ _ _) as [users'|] eqn:Husers.
  - apply UpdateOne_Some in Husers. destruct Husers as [_ ->]. kept.
  - destruct (UpdateOne e 4 _ _ _) as [books''|] eqn:Hundo; [|kept].
    apply UpdateOne_Some in Hundo. destruct Hundo as [_ ->]. kept.
Qed.

Lemma returnBook_keeps_records (e : Env) (parsed : option Loan) (db : DB) :
  map credentials (userCollection (snd (returnBook e parsed db))) =
    map credentials (userCollection db) /\
  map catalogued (bookCollection (snd (returnBook e parsed db))) =
    map catalogued (bookCollection db).
Proof.
  unfold returnBook.
  destruct parsed as [loan|]; [|kept].
  destruct (ObjectIDFromHex (body_UserID loan)) as [u|]; [|kept].
  destruct (ObjectIDFromHex (body_BookID loan)) as [b|]; [|kept].
  destruct (FindOne e 0 _ _) as [book|]; [|kept].
  destruct (match BorrowerID book with Some _ => _ | None => _ end); [kept|].
  destruct (UpdateOne e 1 _ _ _) as [books'|] eqn:Hbooks; [|kept].
  apply UpdateOne_Some in Hbooks. destruct Hbooks as [_ ->].
  destruct (UpdateOne e 2 _ _ _) as [users'|] eqn:Husers; [|kept].
  apply UpdateOne_Some in Husers. destruct Husers as [_ ->]. kept.
Qed.

(** X16. No request removes a book or changes the identifier or the title
    of one, in any environment and whatever the answer: the books after a
    request are the books before it, in the same order and with the same
    identifiers and titles, followed by at most one new book, which only
    an add-book request brings. *)
Theorem books_are_never_removed :
  forall (e : Env) (r : Request) (db : DB),
    exists added,
      map catalogued (bookCollection (snd (serve e r db))) =
        map catalogued (bookCollection db) ++ added /\
      (added = [] \/
       exists req, r = PostBook (Some req) /\
                   added = [(NewObjectID e, body_Title req)]).
Proof.
  intros e r db.
  assert (Hsame : forall db', bookCollection db' = bookCollection db ->
            exists added,
              map catalogued (bookCollection db') =
                map catalogued (bookCollection db) ++ added /\
              (added = [] \/
               exists req, r = PostBook (Some req) /\
                           added = [(NewObjectID e, body_Title req)])).
  { intros db' ->. exists []. rewrite app_nil_r. tauto. }
  destruct r; simpl.
  - apply Hsame. unfold registerUser. repeat break_match; reflexivity.
  - apply Hsame. unfold loginUser. repeat break_match; reflexivity.
  - apply Hsame. unfold getUser. repeat break_match; reflexivity.
  - apply Hsame. unfold deleteUser. repeat break_match; reflexivity.
  - unfold addBook. destruct parsed as [req|]; [|now apply Hsame].
    destruct (InsertOne _ _ _ _ _ _) as [res|] eqn:Hres; [|now apply Hsame].
    apply InsertOne_Some in Hres. destruct Hres as (_ & _ & ->).
    exists [(NewObjectID e, body_Title req)]. simpl. rewrite map_app.
    split; [reflexivity|]. right. now exists req.
  - apply Hsame. unfold listBooks. repeat break_match; reflexivity.
  - exists []. rewrite app_nil_r.
    split; [exact (proj2 (borrowBook_keeps_records e parsed db)) | tauto].
  - exists []. rewrite app_nil_r.
    split; [exact (proj2 (returnBook_keeps_records e parsed db)) | tauto].
Qed.

(** X17. No request rewrites the identifier, the username or the
    password hash of a stored user, in any environment and whatever the
    answer: a user stored after a request either carries the credentials of
    a user stored before it, or is the user a register request has just
    created, with the generated identifier and an empty book list. *)
Theorem credentials_are_never_rewritten :
  forall (e : Env) (r : Request) (db : DB) (user' : User),
    In user' (userCollection (snd (serve e r db))) ->
    (exists user, In user (userCollection db) /\
                  credentials user' = credentials user) \/
    (exists req, r = PostRegister (Some req) /\
                 User_ID user' = NewObjectID e /\
                 Username user' = body_Username req /\
                 Books user' = []).
Proof.
  intros e r db user'.
  assert (Hsame : forall db', userCollection db' = userCollection db ->
            In user' (userCollection db') ->
            exists user, In user (userCollection db) /\
                         credentials user' = credentials user).
  { intros db' -> Hin. now exists user'. }
  assert (Hkept : forall db',
            map credentials (userCollection db') =
              map credentials (userCollection db) ->
            In user' (userCollection db') ->
            exists user, In user (userCollection db) /\
                         credentials user' = credentials user).
  { intros db' Hmap Hin. apply (in_map credentials) in Hin.
    rewrite Hmap in Hin. apply in_map_iff in Hin.
    destruct Hin as (user & Heq & Hin). now exists user. }
  destruct r; simpl.
  - unfold registerUser.
    destruct parsed as [req|]; [|left; now apply (Hsame db)].
    destruct (CountDocuments _ _ _ _) as [count|]; [|left; now apply (Hsame db)].
    destruct (0 <? count); [left; now apply (Hsame db)|].
    destruct (hashPassword _ _) as [hashed|]; [|left; now apply (Hsame db)].
    destruct (InsertOne _ _ _ _ _ _) as [res|] eqn:Hres;
      [|left; now apply (Hsame db)].
    apply InsertOne_Some in Hres. destruct Hres as (_ & _ & ->). simpl.
    intros Hin. apply in_app_or in Hin. destruct Hin as [Hin | [<- | []]].
    + left. now exists user'.
    + right. exists req. repeat split.
  - intros Hin. left. revert Hin. apply Hsame.
    unfold loginUser. repeat break_match; reflexivity.
  - intros Hin. left. revert Hin. apply Hsame.
    unfold getUser. repeat break_match; reflexivity.
  - intros Hin. left. exists user'. split; [|reflexivity]. revert Hin.
    unfold deleteUser.
    destruct (ObjectIDFromHex id) as [objID|]; [|tauto].
    destruct (DeleteOne _ _ _ _) as [res|] eqn:Hres; [|tauto].
    apply DeleteOne_Some in Hres. destruct Hres as [_ ->].
    destruct (fst _ =? 0); simpl; apply deleteFirst_In.
  - intros Hin. left. revert Hin. apply Hsame.
    unfold addBook. repeat break_match; reflexivity.
  - intros Hin. left. revert Hin. apply Hsame.
    unfold listBooks. repeat break_match; reflexivity.
  - intros Hin. left. revert Hin. apply Hkept.
    exact (proj1 (borrowBook_keeps_records e parsed db)).
  - intros Hin. left. revert Hin. apply Hkept.
    exact (proj1 (returnBook_keeps_records e parsed db)).
Qed.

Lemma credentials_are_never_rewritten_witness :
  (* bob after his borrow is bob before it, with a longer list *)
  exists user, In user (userCollection Sample.library) /\
               credentials (mkUser 178%N "bob" "$2a$10$pw2" [3331%N]) =
               credentials user.
Proof.
  destruct (credentials_are_never_rewritten (Sample.quiet 7%N)
              (PostBorrow (Some (mkLoan Sample.bob_id Sample.faust_id)))
              Sample.library (mkUser 178%N "bob" "$2a$10$pw2" [3331%N])
              (or_intror (or_introl eq_refl)))
    as [Hold | (req & Hreq & _)].
  - exact Hold.
  - discriminate Hreq.
Defined.

(** ** Usernames stay unique *)

Lemma by_username_none (name : string) (c : list User) :
  existsb (by_username name) c = false -> ~ In name (map Username c).
Proof.
  induction c as [|d rest IH]; simpl; [tauto|].
  unfold by_username at 1. destruct (String.eqb (Username d) name) eqn:E.
  - discriminate.
  - simpl. apply String.eqb_neq in E. intros Hrest [H | H]; [tauto|].
    now apply IH.
Qed.

Lemma Username_of_credentials (c : list User) :
  map Username c = map (fun k => snd (fst k)) (map credentials c).
Proof. rewrite map_map. reflexivity. Qed.

Lemma serve_uniqueNames (e : Env) (r : Request) (db : DB) :
  uniqueNames db -> uniqueNames (snd (serve e r db)).
Proof.
  intros Hdb.
  assert (Hkept : forall db',
            map credentials (userCollection db') =
              map credentials (userCollection db) -> uniqueNames db').
  { intros db' Hmap. unfold uniqueNames in *.
    now rewrite Username_of_credentials, Hmap, <- Username_of_credentials. }
  destruct r; simpl.
  - unfold registerUser.
    destruct parsed as [req|]; [|exact Hdb].
    unfold CountDocuments. destruct (storeError e 0); [exact Hdb|].
    rewrite count_by_existsb.
    destruct (existsb _ _) eqn:Hname; [exact Hdb|].
    destruct (hashPassword _ _) as [hashed|]; [|exact Hdb].
    destruct (InsertOne _ _ _ _ _ _) as [res|] eqn:Hres; [|exact Hdb].
    apply InsertOne_Some in Hres. destruct Hres as (_ & _ & ->).
    unfold uniqueNames in *. simpl. rewrite map_app. simpl.
    apply NoDup_snoc; [exact Hdb | now apply by_username_none].
  - unfold loginUser. repeat break_match; exact Hdb.
  - unfold getUser. repeat break_match; exact Hdb.
  - unfold deleteUser.
    destruct (ObjectIDFromHex id) as [objID|]; [|exact Hdb].
    destruct (DeleteOne _ _ _ _) as [res|] eqn:Hres; [|exact Hdb].
    apply DeleteOne_Some in Hres. destruct Hres as [_ ->].
    assert (uniqueNames
              (mkDB (snd (deleteFirst (user_by_id objID) (userCollection db)))
                    (bookCollection db))) as Hafter
      by now apply (deleteFirst_map_NoDup Username).
    now destruct (fst _ =? 0).
  - unfold addBook. repeat break_match; exact Hdb.
  - unfold listBooks. repeat break_match; exact Hdb.
  - apply Hkept. exact (proj1 (borrowBook_keeps_records e parsed db)).
  - apply Hkept. exact (proj1 (returnBook_keeps_records e parsed db)).
Qed.

(** X18. Served one after the other, the requests keep usernames unique:
    from a store in which no two users share a username, every store
    reached has the same property, in any environment and whatever the
    answers, because a registration inserts only after counting zero users
    of that name and nothing else writes a username. *)
Theorem usernames_stay_unique :
  forall (db0 db : DB),
    uniqueNames db0 -> reachable db0 db ->
    NoDup (map Username (userCollection db)).
Proof.
  intros db0 db H0 Hrun. induction Hrun as [|e r db Hrun IH]; [exact H0|].
  now apply serve_uniqueNames.
Qed.

Lemma usernames_stay_unique_witness :
  NoDup (map Username
           (userCollection (replay Sample.empty Session.borrower_deleted))).
Proof.
  apply (usernames_stay_unique Sample.empty).
  - constructor.
  - apply reachable_replay.
Defined.

(** ** Returning: the path that writes; who can fail half-way *)

(** X19. A return by the borrower of a stored book (the store answering)
    is answered with 200; afterwards the book has no borrower, and the
    document of the user, if there is one, has lost every copy of the book
    from its list and kept its other entries in order. *)
Theorem return_succeeds :
  forall (e : Env) (loan : Loan) (db : DB) (u b : ObjectID) (book : Book),
    reliable e ->
    ObjectIDFromHex (body_UserID loan) = Some u ->
    ObjectIDFromHex (body_BookID loan) = Some b ->
    find (book_by_id b) (bookCollection db) = Some book ->
    BorrowerID book = Some u ->
    let db' := snd (returnBook e (Some loan) db) in
    fst (returnBook e (Some loan) db) =
      reply StatusOK
        (JObject [("message", JString "Kitap başarıyla iade edildi")]) /\
    find (book_by_id b) (bookCollection db') =
      Some (mkBook (Book_ID book) (Title book) None) /\
    forall user,
      find (user_by_id u) (userCollection db) = Some user ->
      find (user_by_id u) (userCollection db') =
        Some (mkUser (User_ID user) (Username user) (Password user)
                (filter (fun x => negb (ObjectID_eqb x b)) (Books user))) /\
      ~ In b (filter (fun x => negb (ObjectID_eqb x b)) (Books user)).
Proof.
  intros e loan db u b book He Hu Hb Hbook Hheld db'. subst db'.
  assert (Hout : returnBook e (Some loan) db =
                 (reply StatusOK
                    (JObject [("message", JString "Kitap başarıyla iade edildi")]),
                  mkDB (updateFirst (user_by_id u) (pull_books b)
                          (userCollection db))
                       (updateFirst (book_by_id b) (set_borrower_id None)
                          (bookCollection db)))).
  { unfold returnBook, FindOne, UpdateOne.
    now rewrite Hu, Hb, !He, Hbook, Hheld, ObjectID_eqb_refl. }
  rewrite Hout. cbn [fst snd userCollection bookCollection].
  split; [reflexivity|]. split.
  - apply (find_updateFirst _ (set_borrower_id None) _ _ Hbook).
    apply find_some in Hbook. exact (proj2 Hbook).
  - intros user Huser. split.
    + apply (find_updateFirst _ (pull_books b) _ _ Huser).
      apply find_some in Huser. exact (proj2 Huser).
    + intros Hin. apply filter_In in Hin. destruct Hin as [_ Hne].
      now rewrite ObjectID_eqb_refl in Hne.
Qed.

Lemma return_succeeds_witness :
  (* alice gives Dune back and keeps Emma *)
  snd (returnBook (Sample.quiet 7%N)
         (Some (mkLoan Sample.alice_id Sample.dune_id)) Sample.library) =
    mkDB [mkUser 161%N "alice" "$2a$10$pw1" [3330%N]; Sample.bob]
         [mkBook 3329%N "Dune" None; Sample.emma; Sample.faust] /\
  fst (returnBook (Sample.quiet 7%N)
         (Some (mkLoan Sample.alice_id Sample.dune_id)) Sample.library) =
    reply StatusOK
      (JObject [("message", JString "Kitap başarıyla iade edildi")]).
Proof.
  split; [reflexivity|].
  exact (proj1 (return_succeeds (Sample.quiet 7%N)
                  (mkLoan Sample.alice_id Sample.dune_id) Sample.library
                  161%N 3329%N Sample.dune
                  (fun _ => eq_refl) eq_refl eq_refl eq_refl eq_refl)).
Defined.

(** X20. Only the two lending handlers can fail half-way. For every other
    request, in any environment, an answer other than 200 or 201 (the 500
    of a failed count, hash, insert or delete included) means that nothing
    was written. *)
Theorem only_lending_fails_halfway :
  forall (e : Env) (r : Request) (db : DB),
    lends r = false ->
    status (fst (serve e r db)) <> StatusOK ->
    status (fst (serve e r db)) <> StatusCreated ->
    snd (serve e r db) = db.
Proof.
  intros e r db Hr. destruct r; try discriminate Hr; simpl.
  - intros _. unfold registerUser.
    repeat break_match; simpl; intros H; try reflexivity. now elim H.
  - intros _ _. unfold loginUser. repeat break_match; reflexivity.
  - intros _ _. unfold getUser. repeat break_match; reflexivity.
  - intros H _. now apply deleteUser_refused.
  - intros _. unfold addBook.
    repeat break_match; simpl; intros H; try reflexivity. now elim H.
  - intros _ _. unfold listBooks. repeat break_match; reflexivity.
Qed.

Lemma only_lending_fails_halfway_witness :
  (* the insert of a registration fails: 500 and no user stored *)
  status (fst (serve (Sample.failing 1 161%N)
                 (PostRegister (Some (mkCredentials "alice" "pw1")))
                 Sample.empty)) = StatusInternalServerError /\
  snd (serve (Sample.failing 1 161%N)
         (PostRegister (Some (mkCredentials "alice" "pw1"))) Sample.empty) =
  Sample.empty.
Proof.
  split; [reflexivity|].
  apply (only_lending_fails_halfway (Sample.failing 1 161%N)
           (PostRegister (Some (mkCredentials "alice" "pw1"))) Sample.empty
           eq_refl); discriminate.
Defined.
